(** * Dossier Immo Pro: the loan scoring engine of [main.py]

    A shallow embedding of [TauxService.get_current_rate],
    [TauxService.get_taux_info] and of the class [LoanScoringService]
    (notary fees, monthly payment, eligible income, current charges,
    [evaluate_application]) of [src/main.py], with the properties the
    specification states about them; then of the rate refresh
    ([scrape_seloger_rates], [update_monthly_rates]), of
    [PDFService.generate_loan_dossier] and of the endpoints that evaluate,
    pay for and deliver a dossier, with properties read off the code.

    The engine is embedded twice.
    - With exact numbers: a Python [float] is a rational ([Q]), a decimal
      literal is the rational it denotes ([0.7] is [7 # 10]) and an [int]
      is a [Z].  Rounding, overflow, infinities and NaN of IEEE doubles are
      not represented.  This embedding carries the properties of structure:
      which fields an evaluation reads, what a result is made of, the rate
      table, the endpoints and the layout of the PDF; and the example of
      the specification, whose figures are stated with a margin.
    - In double precision (module [Doubles]): a [float] is a binary64 value
      with the operations of IEEE 754, an [int] is a [Z], and an int that
      meets a float is converted, which raises [OverflowError] beyond the
      doubles.  This embedding carries the properties of the numbers
      themselves: eligible income, current charges, monthly payment, debt
      ratio, score.

    Modelling choices common to both.
    - Exceptions are values of [result]: [/] raises [ZeroDivisionError] on a
      zero divisor, [int + str] raises [TypeError], a missing key raises
      [KeyError].
    - The values of a consumer-loan [dict] are untyped ([list[dict]] in
      [FinancialInfo]), so they are [PyValue]s ([JsonValue]s in [Doubles]).
    - The global [taux_storage] read by the engine is an explicit argument,
      and so are the 16 random bytes [uuid.uuid4()] draws. *)

From Stdlib Require Import ZArith QArith Qround Qabs Qpower Lia Lqa Ascii String
  Floats.
From stdpp Require Import base option list strings pretty gmap.

Local Open Scope string_scope.

(** ** Exceptions *)

Inductive PyError : Set :=
  ZeroDivisionError | KeyError | TypeError | OverflowError.

Inductive result (A : Type) : Type :=
  | Ok (a : A)
  | Raise (e : PyError).
Arguments Ok {A} a.
Arguments Raise {A} e.

#[global] Instance result_ret : MRet result := fun A a => Ok a.
#[global] Instance result_bind : MBind result := fun A B k c =>
  match c with
  | Ok a => k a
  | Raise e => Raise e
  end.

(** [try: c except: d] with a bare [except]. *)
Definition try_except {A} (c : result A) (d : A) : A :=
  match c with
  | Ok a => a
  | Raise _ => d
  end.

(** ** Numbers *)

Definition Qlt_bool (x y : Q) : bool := negb (Qle_bool y x).

(** [a / b] on floats. *)
Definition truediv (a b : Q) : result Q :=
  if Qeq_bool b 0 then Raise ZeroDivisionError else Ok (a / b)%Q.

(** [a ** n] for a float [a] and an int [n]: only [0.0 ** negative] raises. *)
Definition pow (a : Q) (n : Z) : result Q :=
  if Qeq_bool a 0 && (n <? 0)%Z then Raise ZeroDivisionError else Ok (a ^ n)%Q.

(** ** String formatting *)

(** Round to the nearest integer, ties to even (what [format] does). *)
Definition round_half_even (q : Q) : Z :=
  let f := Qfloor q in
  match (q - inject_Z f ?= 1 # 2)%Q with
  | Lt => f
  | Gt => (f + 1)%Z
  | Eq => if Z.even f then f else (f + 1)%Z
  end.

Definition with_sign (q : Q) (s : string) : string :=
  if Qle_bool 0 q then s else "-" +:+ s.

(** [f"{q:.0f}"] *)
Definition format_0f (q : Q) : string :=
  with_sign q (pretty (round_half_even (Qabs q))).

(** Digits in reverse order, a comma after each complete group of three
    that is followed by more digits. *)
Fixpoint commas_rev (l : list ascii) : list ascii :=
  match l with
  | a :: b :: c :: ((_ :: _) as rest) =>
      a :: b :: c :: ","%char :: commas_rev rest
  | _ => l
  end.

Definition thousands (s : string) : string :=
  string_of_list_ascii (rev (commas_rev (rev (list_ascii_of_string s)))).

(** [f"{q:,.0f}"] *)
Definition format_comma_0f (q : Q) : string :=
  with_sign q (thousands (pretty (round_half_even (Qabs q)))).

(** [f"{q:.1%}"] *)
Definition format_1pct (q : Q) : string :=
  let m := round_half_even (Qabs q * 1000) in
  with_sign q (pretty (m / 10)%Z +:+ "." +:+ pretty (m mod 10)%Z +:+ "%").

(** ** [str(uuid.uuid4())]

    [uuid4()] is [UUID(bytes=os.urandom(16), version=4)]; [rnd] is the
    integer read from the 16 random bytes. *)

Definition hex_digit (n : Z) : ascii :=
  match n with
  | 0%Z => "0" | 1%Z => "1" | 2%Z => "2" | 3%Z => "3"
  | 4%Z => "4" | 5%Z => "5" | 6%Z => "6" | 7%Z => "7"
  | 8%Z => "8" | 9%Z => "9" | 10%Z => "a" | 11%Z => "b"
  | 12%Z => "c" | 13%Z => "d" | 14%Z => "e" | _ => "f"
  end%char.

(** ['%0<w>x' % n] for [0 <= n < 16^w]. *)
Fixpoint hex_padded (w : nat) (n : Z) (acc : string) : string :=
  match w with
  | O => acc
  | S w' => hex_padded w' (n / 16)%Z (String (hex_digit (n mod 16)%Z) acc)
  end.

Definition uuid4_int (rnd : Z) : Z :=
  let i := (rnd mod 2 ^ 128)%Z in
  let i := Z.land i (Z.lnot (Z.shiftl 0xc000 48)) in
  let i := Z.lor i (Z.shiftl 0x8000 48) in
  let i := Z.land i (Z.lnot (Z.shiftl 0xf000 64)) in
  Z.lor i (Z.shiftl 4 76).

Definition uuid4_str (rnd : Z) : string :=
  let hex := hex_padded 32 (uuid4_int rnd) "" in
  substring 0 8 hex +:+ "-" +:+ substring 8 4 hex +:+ "-" +:+
  substring 12 4 hex +:+ "-" +:+ substring 16 4 hex +:+ "-" +:+
  substring 20 12 hex.

(** ** The pydantic models *)

Inductive PropertyType : Set := neuf | ancien.
Inductive EmploymentStatus : Set := cdi | cdd.
Inductive HousingStatus : Set := locataire | proprietaire | heberge_gratuit.
Inductive Verdict : Set := favorable | moyen | difficile.

Record ProjectInfo : Type := {
  property_price : Q;
  property_type : PropertyType;
  personal_contribution : Q;
  loan_duration : Z
}.

Record EmploymentInfo : Type := {
  status : EmploymentStatus;
  net_monthly_income : Q;
  years_experience : Q;
  trial_period : bool
}.

Record BorrowerInfo : Type := {
  employment : EmploymentInfo;
  age : Z
}.

Record HouseholdInfo : Type := {
  borrowers_count : Z;
  main_borrower : BorrowerInfo;
  co_borrower : option BorrowerInfo;
  children : Z
}.

Record HousingInfo : Type := {
  current_status : HousingStatus;
  monthly_rent : Q;
  current_mortgage : Q;
  changing_main_residence : bool
}.

(** A value stored in a consumer-loan [dict]; [PyContainer] stands for a
    nested list or dict, which [+] rejects whatever it holds. *)
Inductive PyValue : Type :=
  | PyNone
  | PyBool (b : bool)
  | PyNum (x : Q)
  | PyStr (s : string)
  | PyContainer.

Record FinancialInfo : Type := {
  consumer_loans : list (gmap string PyValue);
  rental_income : Q;
  other_income : Q
}.

Record LoanApplication : Type := {
  project : ProjectInfo;
  household : HouseholdInfo;
  housing : HousingInfo;
  financial : FinancialInfo
}.

(** [criteria_details] is a [dict] filled in a fixed order with distinct
    keys: the list of its items, in insertion order. *)
Record ScoringResult : Type := {
  application_id : string;
  feasibility_score : Z;
  scoring_status : Verdict;
  criteria_details : list (string * string);
  recommendations : list string;
  monthly_payment : Q;
  total_budget : Q;
  current_interest_rate : Q;
  rate_source : string;
  rate_last_update : string
}.

(** The pydantic [Field] constraints of a [LoanApplication]. *)
Definition valid_project (p : ProjectInfo) : Prop :=
  (0 < property_price p)%Q /\ (0 <= personal_contribution p)%Q /\
  (5 <= loan_duration p <= 30)%Z.

Definition valid_employment (e : EmploymentInfo) : Prop :=
  (0 < net_monthly_income e)%Q /\ (0 <= years_experience e)%Q.

Definition valid_borrower (b : BorrowerInfo) : Prop :=
  valid_employment (employment b) /\ (18 <= age b <= 80)%Z.

Definition valid_household (h : HouseholdInfo) : Prop :=
  (borrowers_count h = 1 \/ borrowers_count h = 2)%Z /\
  valid_borrower (main_borrower h) /\
  from_option valid_borrower True (co_borrower h) /\
  (0 <= children h <= 20)%Z.

Definition valid_housing (h : HousingInfo) : Prop :=
  (0 <= monthly_rent h)%Q /\ (0 <= current_mortgage h)%Q.

Definition valid_financial (f : FinancialInfo) : Prop :=
  (0 <= rental_income f)%Q /\ (0 <= other_income f)%Q.

Definition validated (a : LoanApplication) : Prop :=
  valid_project (project a) /\ valid_household (household a) /\
  valid_housing (housing a) /\ valid_financial (financial a).

(** ** The rate table *)

(** The [dict] [taux_storage]; a key it may lack is an [option]. *)
Record TauxStorage : Type := {
  date_maj : option string;
  taux : option (gmap string Q);
  source : option string
}.

(** The table the module starts with, and the one both branches of
    [scrape_seloger_rates] return. *)
Definition taux_seloger : gmap string Q :=
  <["10" := 285 # 10000]> (<["15" := 303 # 10000]> (<["20" := 316 # 10000]>
  (<["25" := 326 # 10000]> (<["30" := 340 # 10000]> ∅)))).

(** [taux_storage] as the module defines it; [now] is
    [datetime.now().isoformat()]. *)
Definition taux_storage (now : string) : TauxStorage :=
  {| date_maj := Some now; taux := Some taux_seloger;
     source := Some "seloger.com" |}.

Module TauxService.

(** The body of the [try] in [get_current_rate]:
    [taux_storage["taux"].get(str(duration), 0.035)]. *)
Definition lookup_rate (ts : TauxStorage) (duration : Z) : result Q :=
  match taux ts with
  | None => Raise KeyError
  | Some t => Ok (default (35 # 1000) (t !! pretty duration))
  end.

Definition get_current_rate (ts : TauxStorage) (duration : Z) : Q :=
  try_except (lookup_rate ts duration) (35 # 1000).

Definition get_taux_info (ts : TauxStorage) : TauxStorage := ts.

End TauxService.

(** ** The scoring service *)

(** The three locals [criteria], [score] and [recommendations] that
    [evaluate_application] updates criterion after criterion. *)
Record Tally : Type := {
  criteria : list (string * string);
  score : Z;
  recs : list string
}.

(** [criteria[key] = verdict; score += points] *)
Definition passes (key verdict : string) (points : Z) (t : Tally) : Tally :=
  {| criteria := criteria t ++ [(key, verdict)];
     score := (score t + points)%Z;
     recs := recs t |}.

(** [criteria[key] = verdict; recommendations.append(advice)] *)
Definition fails (key verdict advice : string) (t : Tally) : Tally :=
  {| criteria := criteria t ++ [(key, verdict)];
     score := score t;
     recs := recs t ++ [advice] |}.

Module LoanScoringService.

Local Open Scope Q_scope.

Definition calculate_notary_fees (price : Q) (ptype : PropertyType) : Q :=
  match ptype with
  | neuf => price * (3 # 100)
  | ancien => price * (8 # 100)
  end.

Definition get_current_interest_rate (ts : TauxStorage) (duration : Z) : Q :=
  TauxService.get_current_rate ts duration.

Definition calculate_monthly_payment (ts : TauxStorage)
    (amount : Q) (duration_years : Z) (rate : option Q) : result Q :=
  let rate :=
    match rate with
    | None => get_current_interest_rate ts duration_years
    | Some r => r
    end in
  let monthly_rate := rate / 12 in
  let n_payments := (duration_years * 12)%Z in
  if Qeq_bool monthly_rate 0 then truediv amount (inject_Z n_payments)
  else
    growth ← pow (1 + monthly_rate) n_payments;
    growth' ← pow (1 + monthly_rate) n_payments;
    truediv (amount * (monthly_rate * growth)) (growth' - 1).

Definition calculate_eligible_income (e : EmploymentInfo) : Q :=
  let base_income := net_monthly_income e in
  match status e with
  | cdi => if trial_period e then 0 else base_income
  | cdd =>
      if Qle_bool 3 (years_experience e) then base_income * (7 # 10) else 0
  end.

(** [charges + v] for the number [charges] and a value [v] of a [dict]. *)
Definition add_value (charges : Q) (v : PyValue) : result Q :=
  match v with
  | PyNum x => Ok (charges + x)
  | PyBool b => Ok (charges + (if b then 1 else 0))
  | PyNone | PyStr _ | PyContainer => Raise TypeError
  end.

(** The loop [for loan in consumer_loans:
    charges += loan.get('monthly_payment', 0)]. *)
Fixpoint add_consumer_loans (charges : Q)
    (loans : list (gmap string PyValue)) : result Q :=
  match loans with
  | [] => Ok charges
  | loan :: rest =>
      charges' ← add_value charges
                   (default (PyNum 0) (loan !! "monthly_payment"));
      add_consumer_loans charges' rest
  end.

Definition calculate_current_charges (h : HousingInfo) (f : FinancialInfo)
    : result Q :=
  let charges := 0 in
  let charges :=
    match current_status h with
    | locataire => charges + 0
    | proprietaire =>
        if changing_main_residence h then charges + current_mortgage h
        else charges
    | heberge_gratuit => charges
    end in
  add_consumer_loans charges (consumer_loans f).

Definition calculate_total_eligible_income (h : HouseholdInfo)
    (f : FinancialInfo) : Q :=
  let main_income := calculate_eligible_income (employment (main_borrower h)) in
  let co_income :=
    match co_borrower h with
    | Some b => calculate_eligible_income (employment b)
    | None => 0
    end in
  let rental_income_eligible := rental_income f * (7 # 10) in
  main_income + co_income + rental_income_eligible + other_income f.

(** *** The five criteria, in the order of the source *)

Definition critere_apport (contribution min_contribution : Q) : Tally -> Tally :=
  if Qle_bool min_contribution contribution
  then passes "apport" "✅ Apport suffisant" 30
  else fails "apport"
         ("❌ Apport insuffisant (" +:+ format_0f min_contribution +:+
          "€ minimum)")
         ("Augmentez votre apport à " +:+ format_0f min_contribution +:+
          "€ minimum").

Definition critere_revenus (main_income total_income : Q) : Tally -> Tally :=
  if Qlt_bool 0 main_income
  then passes "revenus"
         ("✅ Revenus éligibles : " +:+ format_comma_0f total_income +:+
          "€/mois") 20
  else fails "revenus" "❌ Revenus non éligibles"
         "Obtenez un CDI ou justifiez 3 ans d'ancienneté en CDD".

Definition critere_endettement (debt_ratio : Q) : Tally -> Tally :=
  if Qle_bool debt_ratio (33 # 100)
  then passes "endettement"
         ("✅ Taux d'endettement : " +:+ format_1pct debt_ratio) 30
  else fails "endettement"
         ("❌ Taux d'endettement trop élevé : " +:+ format_1pct debt_ratio)
         "Réduisez vos charges ou augmentez vos revenus".

Definition critere_reste_vivre (remaining : Q) (min_remaining : Z)
    : Tally -> Tally :=
  if Qle_bool (inject_Z min_remaining) remaining
  then passes "reste_vivre"
         ("✅ Reste à vivre : " +:+ format_0f remaining +:+ "€") 10
  else fails "reste_vivre"
         ("❌ Reste à vivre insuffisant : " +:+ format_0f remaining +:+ "€")
         ("Assurez-vous d'avoir " +:+ format_0f (inject_Z min_remaining) +:+
          "€ de reste à vivre").

Definition critere_age (loan_end_age : Z) : Tally -> Tally :=
  if (loan_end_age <=? 64)%Z
  then passes "age" ("✅ Fin de crédit à " +:+ pretty loan_end_age +:+ " ans") 10
  else fails "age"
         ("❌ Fin de crédit à " +:+ pretty loan_end_age +:+
          " ans (limite 64 ans)")
         "Réduisez la durée du prêt".

Definition final_status (score : Z) : Verdict :=
  if (80 <=? score)%Z then favorable
  else if (50 <=? score)%Z then moyen
  else difficile.

(** [rnd] is the randomness [uuid.uuid4()] consumes. *)
Definition evaluate_application (ts : TauxStorage) (rnd : Z)
    (application : LoanApplication) : result ScoringResult :=
  let p := project application in
  let notary_fees :=
    calculate_notary_fees (property_price p) (property_type p) in
  let total_budget := property_price p + notary_fees in
  let loan_amount := total_budget - personal_contribution p in
  let total_income :=
    calculate_total_eligible_income (household application)
      (financial application) in
  let current_rate := get_current_interest_rate ts (loan_duration p) in
  monthly_payment ←
    calculate_monthly_payment ts loan_amount (loan_duration p)
      (Some current_rate);
  current_charges ←
    calculate_current_charges (housing application) (financial application);
  let household_size :=
    (borrowers_count (household application)
     + children (household application))%Z in
  let min_remaining := (household_size * 750)%Z in
  let t := {| criteria := []; score := 0%Z; recs := [] |} in
  let min_contribution := total_budget * (10 # 100) in
  let t := critere_apport (personal_contribution p) min_contribution t in
  let main_income :=
    calculate_eligible_income
      (employment (main_borrower (household application))) in
  let t := critere_revenus main_income total_income t in
  let total_charges := monthly_payment + current_charges in
  debt_ratio ←
    (if Qlt_bool 0 total_income then truediv total_charges total_income
     else Ok 1);
  let t := critere_endettement debt_ratio t in
  let remaining := total_income - total_charges in
  let t := critere_reste_vivre remaining min_remaining t in
  let loan_end_age :=
    (age (main_borrower (household application)) + loan_duration p)%Z in
  let t := critere_age loan_end_age t in
  let status := final_status (score t) in
  let taux_info := TauxService.get_taux_info ts in
  Ok {| application_id := uuid4_str rnd;
        feasibility_score := score t;
        scoring_status := status;
        criteria_details := criteria t;
        recommendations := recs t;
        monthly_payment := monthly_payment;
        total_budget := total_budget;
        current_interest_rate := current_rate;
        rate_source := default "seloger.com" (source taux_info);
        rate_last_update := default "Non disponible" (date_maj taux_info) |}.

End LoanScoringService.

Import LoanScoringService.

(** ** Observations on a result *)

#[global] Instance result_fmap : FMap result := fun A B f c =>
  match c with
  | Ok a => Ok (f a)
  | Raise e => Raise e
  end.

(** A [ScoringResult] with its identifier blanked: everything the scoring
    itself decides. *)
Definition anonymous (r : ScoringResult) : ScoringResult :=
  {| application_id := "";
     feasibility_score := feasibility_score r;
     scoring_status := scoring_status r;
     criteria_details := criteria_details r;
     recommendations := recommendations r;
     monthly_payment := monthly_payment r;
     total_budget := total_budget r;
     current_interest_rate := current_interest_rate r;
     rate_source := rate_source r;
     rate_last_update := rate_last_update r |}.

(** [criteria[key]] *)
Fixpoint verdict_of (key : string) (items : list (string * string))
    : option string :=
  match items with
  | [] => None
  | (k, v) :: rest => if String.eqb k key then Some v else verdict_of key rest
  end.

(** Whether the verdict recorded under [key] is a pass (it starts with
    the check mark). *)
Definition criterion_passed (key : string) (r : ScoringResult) : bool :=
  match verdict_of key (criteria_details r) with
  | Some v => String.prefix "✅" v
  | None => false
  end.

Definition points (weight : Z) (passed : bool) : Z :=
  if passed then weight else 0%Z.

(** A consumer-loan entry whose monthly payment, when it declares one, is
    a number. *)
Definition numeric_payment (loan : gmap string PyValue) : Prop :=
  match loan !! "monthly_payment" with
  | None | Some (PyNum _) | Some (PyBool _) => True
  | Some PyNone | Some (PyStr _) | Some PyContainer => False
  end.

(** The payment an entry declares. *)
Definition declared_payment (loan : gmap string PyValue) : Q :=
  match loan !! "monthly_payment" with
  | Some (PyNum x) => x
  | Some (PyBool true) => 1
  | _ => 0
  end.

Definition sum_payments (loans : list (gmap string PyValue)) : Q :=
  foldr (fun loan acc => declared_payment loan + acc)%Q 0%Q loans.

(** Equality of two outcomes up to the value of the rational. *)
Definition same_outcome (c c' : result Q) : Prop :=
  match c, c' with
  | Ok x, Ok x' => (x == x')%Q
  | Raise e, Raise e' => e = e'
  | _, _ => False
  end.

(** What the housing situation adds to the charges: the current mortgage
    for an owner who changes main residence, nothing otherwise. *)
Definition housing_charge (h : HousingInfo) : Q :=
  match current_status h, changing_main_residence h with
  | proprietaire, true => current_mortgage h
  | proprietaire, false => 0
  | locataire, _ => 0
  | heberge_gratuit, _ => 0
  end.

Definition with_loans (f : FinancialInfo) (loans : list (gmap string PyValue))
    : FinancialInfo :=
  {| consumer_loans := loans;
     rental_income := rental_income f;
     other_income := other_income f |}.

(** ** The intermediate quantities of [evaluate_application] *)

Section Evaluation.

Local Open Scope Q_scope.

Variable ts : TauxStorage.
Variable a : LoanApplication.

Definition budget : Q :=
  property_price (project a)
  + calculate_notary_fees (property_price (project a))
      (property_type (project a)).

Definition income : Q :=
  calculate_total_eligible_income (household a) (financial a).

Definition rate : Q :=
  get_current_interest_rate ts (loan_duration (project a)).

Definition payment : result Q :=
  calculate_monthly_payment ts (budget - personal_contribution (project a))
    (loan_duration (project a)) (Some rate).

Definition charges : result Q :=
  calculate_current_charges (housing a) (financial a).

(** The ratio as the source computes it. *)
Definition ratio (mp cc : Q) : result Q :=
  if Qlt_bool 0 income then truediv (mp + cc) income else Ok 1.

(** The tally after the five criteria. *)
Definition tally (mp cc d : Q) : Tally :=
  critere_age
    (age (main_borrower (household a)) + loan_duration (project a))%Z
    (critere_reste_vivre (income - (mp + cc))
       ((borrowers_count (household a) + children (household a)) * 750)%Z
       (critere_endettement d
          (critere_revenus
             (calculate_eligible_income
                (employment (main_borrower (household a)))) income
             (critere_apport (personal_contribution (project a))
                (budget * (10 # 100))
                {| criteria := []; score := 0%Z; recs := [] |})))).

Definition scoring (rnd : Z) (mp cc d : Q) : ScoringResult :=
  let t := tally mp cc d in
  {| application_id := uuid4_str rnd;
     feasibility_score := score t;
     scoring_status := final_status (score t);
     criteria_details := criteria t;
     recommendations := recs t;
     monthly_payment := mp;
     total_budget := budget;
     current_interest_rate := rate;
     rate_source := default "seloger.com" (source ts);
     rate_last_update := default "Non disponible" (date_maj ts) |}.

End Evaluation.

(** ** Sample inputs *)

Module Samples.

Local Open Scope Q_scope.

Definition now : string := "2025-01-01T09:00:00".

Definition salarie (st : EmploymentStatus) (income years : Q) (trial : bool)
    : BorrowerInfo :=
  {| employment := {| status := st; net_monthly_income := income;
                      years_experience := years; trial_period := trial |};
     age := 30 |}.

Definition dossier (price : Q) (ptype : PropertyType) (contribution : Q)
    (duration : Z) (h : HousingInfo) (loans : list (gmap string PyValue))
    : LoanApplication :=
  {| project := {| property_price := price; property_type := ptype;
                   personal_contribution := contribution;
                   loan_duration := duration |};
     household := {| borrowers_count := 1;
                     main_borrower := salarie cdi 3000 5 false;
                     co_borrower := None; children := 0 |};
     housing := h;
     financial := {| consumer_loans := loans; rental_income := 0;
                     other_income := 0 |} |}.

Definition tenant (rent : Q) : HousingInfo :=
  {| current_status := locataire; monthly_rent := rent;
     current_mortgage := 0; changing_main_residence := true |}.

Definition owner (mortgage : Q) (changing : bool) : HousingInfo :=
  {| current_status := proprietaire; monthly_rent := 0;
     current_mortgage := mortgage; changing_main_residence := changing |}.

(** The example of the specification: 200000 existing, 20000 down,
    20 years, one permanent borrower earning 3000. *)
Definition exemple : LoanApplication :=
  dossier 200000 ancien 20000 20 (tenant 0) [].

End Samples.

Module Instances.

Import Samples.

Definition ts : TauxStorage := taux_storage now.

(** An owner who changes main residence, with a 150 loan and a loan
    entry that declares no payment. *)
Definition credit : gmap string PyValue := {[ "monthly_payment" := PyNum 150 ]}.
Definition sans_mensualite : gmap string PyValue := {[ "label" := PyStr "auto" ]}.
Definition finances : FinancialInfo :=
  {| consumer_loans := [credit; sans_mensualite];
     rental_income := 0; other_income := 0 |}.

(** The example with a rent of 950. *)
Definition exemple_loyer : LoanApplication :=
  dossier 200000 ancien 20000 20 (tenant 950) [].

End Instances.

(** ** The rate refresh

    [scrape_seloger_rates] awaits one HTTP GET.  [http] is what the request
    gave: [Some code] for a response with that status code, [None] when
    [client.get] raised.  A status other than 200 raises too, and every
    exception ends in the [except] branch.  [now] is
    [datetime.now().isoformat()].  Logging is not represented. *)

Definition scrape_seloger_rates (http : option Z) (now : string) : TauxStorage :=
  let fallback :=
    {| date_maj := Some now;
       taux := Some (<["10" := 285 # 10000]> (<["15" := 303 # 10000]>
                     (<["20" := 316 # 10000]> (<["25" := 326 # 10000]>
                     (<["30" := 340 # 10000]> ∅)))));
       source := Some "fallback" |} in
  match http with
  | None => fallback
  | Some status_code =>
      if negb (status_code =? 200)%Z then fallback
      else
        let taux_scraped :=
          <["10" := 285 # 10000]> (<["15" := 303 # 10000]>
          (<["20" := 316 # 10000]> (<["25" := 326 # 10000]>
          (<["30" := 340 # 10000]> ∅)))) in
        {| date_maj := Some now; taux := Some taux_scraped;
           source := Some "seloger.com" |}
  end.

(** [update_monthly_rates]: the global [taux_storage] becomes what the
    scrape returned; [ts] is its value before. *)
Definition update_monthly_rates (http : option Z) (now : string)
    (ts : TauxStorage) : TauxStorage :=
  let new_rates := scrape_seloger_rates http now in
  new_rates.

(** ** More string formatting *)

Definition two_digits (n : Z) : string :=
  (if (n <? 10)%Z then "0" else "") +:+ pretty n.

(** [f"{q:.2%}"] *)
Definition format_2pct (q : Q) : string :=
  let m := round_half_even (Qabs q * 10000) in
  with_sign q (pretty (m / 100)%Z +:+ "." +:+ two_digits (m mod 100)%Z +:+ "%").

(** A byte that continues a UTF-8 character. *)
Definition is_continuation (c : ascii) : bool :=
  let n := N_of_ascii c in (128 <=? n)%N && (n <? 192)%N.

(** [s[:n]]: the first [n] characters of a UTF-8 string. *)
Fixpoint take_chars (n : nat) (s : string) : string :=
  match s with
  | EmptyString => EmptyString
  | String c rest =>
      if is_continuation c then String c (take_chars n rest)
      else
        match n with
        | O => EmptyString
        | S n' => String c (take_chars n' rest)
        end
  end.

(** [s.replace('_', ' ')] *)
Fixpoint replace_underscores (s : string) : string :=
  match s with
  | EmptyString => EmptyString
  | String c rest =>
      String (if Ascii.eqb c "_" then " "%char else c) (replace_underscores rest)
  end.

(** [scoring.status.upper()] for the three values of the [Literal]. *)
Definition status_upper (v : Verdict) : string :=
  match v with
  | favorable => "FAVORABLE"
  | moyen => "MOYEN"
  | difficile => "DIFFICILE"
  end.

(** ** The PDF of a dossier

    [generate_loan_dossier] drives a reportlab canvas; the model is the
    list of the calls it makes, in order.  The page size [A4] and Python's
    [str.title] come from outside the repository and are parameters. *)

Inductive CanvasOp : Type :=
  | SetFont (name : string) (size : Z)
  | DrawString (x : Z) (y : Q) (text : string).

Module PDFService.

Section Canvas.

Local Open Scope Q_scope.

Variable A4 : Q * Q.
Variable str_title : string -> string.

(** The loop over [criteria_details.items()]: [y -= 15] then one line. *)
Fixpoint draw_criteria (y : Q) (items : list (string * string))
    : Q * list CanvasOp :=
  match items with
  | [] => (y, [])
  | (criterion, verdict) :: rest =>
      let y := y - 15 in
      let line :=
        DrawString 50 y
          (str_title (replace_underscores criterion) +:+ ": " +:+ verdict) in
      let '(y', ops) := draw_criteria y rest in
      (y', line :: ops)
  end.

(** The loop over [enumerate(recommendations, 1)], from index [i]. *)
Fixpoint draw_recommendations (y : Q) (i : Z) (recs : list string)
    : Q * list CanvasOp :=
  match recs with
  | [] => (y, [])
  | rec :: rest =>
      let y := y - 15 in
      let line := DrawString 50 y (pretty i +:+ ". " +:+ rec) in
      let '(y', ops) := draw_recommendations y (i + 1)%Z rest in
      (y', line :: ops)
  end.

Definition generate_loan_dossier (application : LoanApplication)
    (scoring : ScoringResult) : list CanvasOp :=
  let '(width, height) := A4 in
  let header :=
    [ SetFont "Helvetica-Bold" 16;
      DrawString 50 (height - 50) "DOSSIER DE PRÊT IMMOBILIER" ] in
  let y := height - 80 in
  let taux_line :=
    [ SetFont "Helvetica" 10;
      DrawString 50 y
        ("Taux (" +:+ rate_source scoring +:+ "): " +:+
         format_2pct (current_interest_rate scoring)) ] in
  let y := y - 15 in
  let maj_line :=
    [ DrawString 50 y
        ("Mise à jour: " +:+ take_chars 10 (rate_last_update scoring)) ] in
  let y := y - 40 in
  let score_line :=
    [ SetFont "Helvetica-Bold" 14;
      DrawString 50 y
        ("Score: " +:+ pretty (feasibility_score scoring) +:+ "/100 - " +:+
         status_upper (scoring_status scoring)) ] in
  let y := y - 40 in
  let projet_title :=
    [ SetFont "Helvetica-Bold" 12; DrawString 50 y "PROJET IMMOBILIER" ] in
  let y := y - 20 in
  let prix_line :=
    [ SetFont "Helvetica" 10;
      DrawString 50 y
        ("Prix: " +:+
         format_comma_0f (property_price (project application)) +:+ " €") ] in
  let y := y - 15 in
  let budget_line :=
    [ DrawString 50 y
        ("Budget total: " +:+ format_comma_0f (total_budget scoring) +:+ " €") ] in
  let y := y - 15 in
  let mensualite_line :=
    [ DrawString 50 y
        ("Mensualité: " +:+ format_comma_0f (monthly_payment scoring) +:+
         " €/mois") ] in
  let y := y - 30 in
  let criteres_title :=
    [ SetFont "Helvetica-Bold" 12; DrawString 50 y "CRITÈRES D'ÉVALUATION" ] in
  let y := y - 20 in
  let '(y, criteres) := draw_criteria y (criteria_details scoring) in
  let recommandations :=
    match recommendations scoring with
    | [] => []
    | _ :: _ =>
        let y := y - 30 in
        let title :=
          [ SetFont "Helvetica-Bold" 12; DrawString 50 y "RECOMMANDATIONS" ] in
        let y := y - 20 in
        let '(_, lines) :=
          draw_recommendations y 1 (recommendations scoring) in
        (title ++ [ SetFont "Helvetica" 10 ] ++ lines)%list
    end in
  (header ++ taux_line ++ maj_line ++ score_line ++ projet_title ++ prix_line
   ++ budget_line ++ mensualite_line ++ criteres_title
   ++ [ SetFont "Helvetica" 10 ] ++ criteres ++ recommandations)%list.

End Canvas.

End PDFService.

(** The heights at which text is drawn, in drawing order. *)
Definition text_heights (ops : list CanvasOp) : list Q :=
  flat_map (fun op => match op with
                      | DrawString _ y _ => [y]
                      | SetFont _ _ => []
                      end) ops.

(** [n] heights, 15 apart, the first one 15 below [y]; and the height
    reached after them. *)
Fixpoint ladder (y : Q) (n : nat) : list Q :=
  match n with
  | O => []
  | S n' => (y - 15)%Q :: ladder (y - 15)%Q n'
  end.

Fixpoint ladder_end (y : Q) (n : nat) : Q :=
  match n with
  | O => y
  | S n' => ladder_end (y - 15)%Q n'
  end.

(** A list of heights, each strictly below the one before, the first
    strictly below [top]. *)
Fixpoint descending (top : Q) (l : list Q) : Prop :=
  match l with
  | [] => True
  | y :: rest => (y < top)%Q /\ descending y rest
  end.

(** How far below the top of the page the last line is, for [n] criteria
    and [m] recommendations. *)
Definition page_depth (n m : nat) : Q :=
  (275 + 15 * inject_Z (Z.of_nat n)
   + match m with
     | O => 0
     | S _ => 50 + 15 * inject_Z (Z.of_nat m)
     end)%Q.

(** ** The endpoints

    The handlers run without suspension between their first and last
    statement, so a request is one step on the two globals.  What
    Stripe answers is an argument of the handlers that call it. *)

(** What a handler raises.  [detail] is kept as the pieces it is formatted
    from: [Caused prefix e] stands for [f"{prefix}{str(e)}"]. *)
Inductive Exception : Type :=
  | EngineError (e : PyError)
  | StripeError (message : string)
  | HTTPException (status_code : Z) (detail : Detail)
with Detail : Type :=
  | Plain (text : string)
  | Caused (prefix : string) (cause : Exception).

Inductive outcome (A : Type) : Type :=
  | Returns (a : A)
  | Raises (e : Exception).
Arguments Returns {A} a.
Arguments Raises {A} e.

(** [try: c except Exception as e: raise HTTPException(500, prefix + str(e))];
    [HTTPException] is an [Exception], so it is caught as well. *)
Definition except_500 {A} (prefix : string) (c : outcome A) : outcome A :=
  match c with
  | Returns a => Returns a
  | Raises e => Raises (HTTPException 500 (Caused prefix e))
  end.

(** The fields of a Stripe [PaymentIntent] the code sends or reads. *)
Record PaymentIntent : Type := {
  intent_status : string;
  client_secret : string;
  intent_amount : Z;
  intent_currency : string;
  intent_application_id : string
}.

Record PaymentRequest : Type := {
  request_application_id : string;
  amount : Z
}.

(** A value of [applications_store]. *)
Record Dossier : Type := {
  stored_application : LoanApplication;
  stored_scoring : ScoringResult;
  created_at : string;
  paid : bool
}.

(** The two globals [taux_storage] and [applications_store]. *)
Record Server : Type := {
  current_taux : TauxStorage;
  applications_store : gmap string Dossier
}.

Inductive Reply : Type :=
  | ScoringReply (r : ScoringResult)
  | ClientSecret (secret : string)
  | PaymentConfirmed
  | CompleteDossier (r : ScoringResult)
  | PdfAttachment (content : list CanvasOp).

Definition mark_paid (d : Dossier) : Dossier :=
  {| stored_application := stored_application d;
     stored_scoring := stored_scoring d;
     created_at := created_at d;
     paid := true |}.

Definition evaluate_loan_application (application : LoanApplication)
    (rnd : Z) (now : string) (s : Server) : Server * outcome Reply :=
  match evaluate_application (current_taux s) rnd application with
  | Ok scoring_result =>
      ({| current_taux := current_taux s;
          applications_store :=
            <[application_id scoring_result :=
                {| stored_application := application;
                   stored_scoring := scoring_result;
                   created_at := now;
                   paid := false |}]> (applications_store s) |},
       Returns (ScoringReply scoring_result))
  | Raise e =>
      (s, except_500 "Erreur d'évaluation: " (Raises (EngineError e)))
  end.

(** [stripe_create amount currency application_id] is what
    [stripe.PaymentIntent.create] answers. *)
Definition create_payment_intent (payment_request : PaymentRequest)
    (stripe_create : Z -> string -> string -> outcome PaymentIntent)
    (s : Server) : Server * outcome Reply :=
  (s,
   except_500 "Erreur paiement: "
     match applications_store s !! request_application_id payment_request with
     | None => Raises (HTTPException 404 (Plain "Dossier non trouvé"))
     | Some _ =>
         match stripe_create (amount payment_request) "eur"
                 (request_application_id payment_request) with
         | Returns intent => Returns (ClientSecret (client_secret intent))
         | Raises e => Raises e
         end
     end).

(** [stripe_retrieve payment_intent_id] is what
    [stripe.PaymentIntent.retrieve] answers. *)
Definition confirm_payment (application_id payment_intent_id : string)
    (stripe_retrieve : string -> outcome PaymentIntent)
    (s : Server) : Server * outcome Reply :=
  match applications_store s !! application_id with
  | None =>
      (s, except_500 "Erreur confirmation: "
            (Raises (HTTPException 404 (Plain "Dossier non trouvé"))))
  | Some d =>
      match stripe_retrieve payment_intent_id with
      | Raises e => (s, except_500 "Erreur confirmation: " (Raises e))
      | Returns intent =>
          if String.eqb (intent_status intent) "succeeded"
          then
            ({| current_taux := current_taux s;
                applications_store :=
                  <[application_id := mark_paid d]> (applications_store s) |},
             Returns PaymentConfirmed)
          else
            (s, except_500 "Erreur confirmation: "
                  (Raises (HTTPException 400 (Plain "Paiement non confirmé"))))
      end
  end.

Definition get_complete_dossier (application_id : string) (s : Server)
    : Server * outcome Reply :=
  (s,
   except_500 "Erreur récupération: "
     match applications_store s !! application_id with
     | None => Raises (HTTPException 404 (Plain "Dossier non trouvé"))
     | Some app_data =>
         if negb (paid app_data)
         then Raises (HTTPException 402 (Plain "Paiement requis"))
         else Returns (CompleteDossier (stored_scoring app_data))
     end).

Definition download_pdf (A4 : Q * Q) (str_title : string -> string)
    (application_id : string) (s : Server) : Server * outcome Reply :=
  (s,
   except_500 "Erreur génération PDF: "
     match applications_store s !! application_id with
     | None => Raises (HTTPException 404 (Plain "Dossier non trouvé"))
     | Some app_data =>
         if negb (paid app_data)
         then Raises (HTTPException 402 (Plain "Paiement requis"))
         else
           Returns (PdfAttachment
                      (PDFService.generate_loan_dossier A4 str_title
                         (stored_application app_data)
                         (stored_scoring app_data)))
     end).

(** One thing that happens to the server: a run of the refresh job or a
    request, with the answers of the outside world. *)
Inductive Event : Type :=
  | UpdateRates (http : option Z) (now : string)
  | Evaluate (application : LoanApplication) (rnd : Z) (now : string)
  | CreateIntent (payment_request : PaymentRequest)
      (stripe_create : Z -> string -> string -> outcome PaymentIntent)
  | Confirm (application_id payment_intent_id : string)
      (stripe_retrieve : string -> outcome PaymentIntent)
  | GetDossier (application_id : string)
  | DownloadPdf (application_id : string).

Section Run.

Variable A4 : Q * Q.
Variable str_title : string -> string.

Definition step (s : Server) (e : Event) : Server * option (outcome Reply) :=
  match e with
  | UpdateRates http now =>
      ({| current_taux := update_monthly_rates http now (current_taux s);
          applications_store := applications_store s |}, None)
  | Evaluate application rnd now =>
      let '(s', r) := evaluate_loan_application application rnd now s in
      (s', Some r)
  | CreateIntent payment_request stripe_create =>
      let '(s', r) := create_payment_intent payment_request stripe_create s in
      (s', Some r)
  | Confirm application_id payment_intent_id stripe_retrieve =>
      let '(s', r) :=
        confirm_payment application_id payment_intent_id stripe_retrieve s in
      (s', Some r)
  | GetDossier application_id =>
      let '(s', r) := get_complete_dossier application_id s in (s', Some r)
  | DownloadPdf application_id =>
      let '(s', r) := download_pdf A4 str_title application_id s in
      (s', Some r)
  end.

(** The server after a sequence of events. *)
Definition run (s : Server) (events : list Event) : Server :=
  fold_left (fun s e => fst (step s e)) events s.

End Run.

(** The server when the module has just been loaded. *)
Definition startup (now : string) : Server :=
  {| current_taux := taux_storage now; applications_store := ∅ |}.

(** A [Confirm] event for [id] that Stripe answered with a succeeded
    intent. *)
Definition confirmed_by (id : string) (e : Event) : Prop :=
  match e with
  | Confirm application_id payment_intent_id stripe_retrieve =>
      application_id = id /\
      exists intent,
        stripe_retrieve payment_intent_id = Returns intent /\
        intent_status intent = "succeeded"
  | _ => False
  end.

(** ** More sample inputs *)

Module Cases.

Import Samples.

Local Open Scope Q_scope.

(** The example of the specification with a co-borrower in trial period. *)
Definition co_emprunteur : BorrowerInfo := salarie cdi 2500 1 true.

Definition exemple_a_deux : LoanApplication :=
  {| project := project exemple;
     household := {| borrowers_count := 2;
                     main_borrower := main_borrower (household exemple);
                     co_borrower := Some co_emprunteur;
                     children := children (household exemple) |};
     housing := housing exemple;
     financial := financial exemple |}.

(** An intent that succeeded, created for another application and for one
    cent. *)
Definition intent_autre : PaymentIntent :=
  {| intent_status := "succeeded"; client_secret := "pi_1_secret";
     intent_amount := 1; intent_currency := "eur";
     intent_application_id := "autre" |}.

Definition stripe_retrieve (payment_intent_id : string)
    : outcome PaymentIntent :=
  Returns intent_autre.

(** A stored, unpaid dossier. *)
Definition resultat : ScoringResult :=
  {| application_id := "abc"; feasibility_score := 40;
     scoring_status := difficile;
     criteria_details := [("apport", "❌ Apport insuffisant (21600€ minimum)")];
     recommendations := ["Augmentez votre apport à 21600€ minimum"];
     monthly_payment := 1103; total_budget := 216000;
     current_interest_rate := 316 # 10000;
     rate_source := "seloger.com"; rate_last_update := now |}.

Definition dossier_stocke : Dossier :=
  {| stored_application := exemple; stored_scoring := resultat;
     created_at := now; paid := false |}.

Definition serveur : Server :=
  {| current_taux := taux_storage now;
     applications_store := {[ "abc" := dossier_stocke ]} |}.

(** An evaluation of the example, then the confirmation of its payment. *)
Definition parcours : list Event :=
  [ UpdateRates None now;
    Evaluate exemple 0 now;
    Confirm (uuid4_str 0) "pi_1" stripe_retrieve ].

(** reportlab's A4, in points: 210 mm by 297 mm at 72 points per inch. *)
Definition A4 : Q * Q := (210 * 72 / (254 # 10), 297 * 72 / (254 # 10)).

Definition str_title (s : string) : string := s.

End Cases.

(** ** The engine in double precision

    The same functions of [LoanScoringService] once more, with the numbers
    Python computes with: a [float] is an IEEE 754 binary64 value
    ([PrimFloat.float]: [+], [-], [*], [/] round to nearest, ties to even,
    and there are infinities, signed zeros and NaN), an [int] is unbounded,
    and the two meet as Python makes them meet: [int + float] converts the
    int first, and raises [OverflowError] when it is too large for a double.

    A JSON number is an [int] when it is written without fraction or
    exponent and a [float] otherwise, and the values of a consumer-loan
    [dict] are kept as parsed.  The [float] fields of the pydantic models
    hold doubles.

    [float ** int] is the C library's [pow], which no standard fixes to the
    last bit: the engine takes it as a parameter [float_pow], and the
    theorems hold for every such function.  [ideal_pow], the correctly
    rounded power, stands for it where a sample is evaluated. *)

Module Doubles.

Local Open Scope float_scope.

#[local] Set Warnings "-inexact-float".

(** *** Python numbers *)

Inductive PyNumber : Set :=
  | PInt (n : Z)
  | PFloat (x : float).

(** [float(n)]: the nearest double, ties to even.  The largest double is
    [2^1024 - 2^971]; an int from [2^1024 - 2^970] on rounds beyond it and
    raises. *)
Definition float_of_int (n : Z) : result float :=
  if (Z.abs n <? 2 ^ 1024 - 2 ^ 970)%Z
  then Ok (SF2Prim (binary_normalize prec emax n 0 false))
  else Raise OverflowError.

(** The operand of a float operation. *)
Definition as_float (a : PyNumber) : result float :=
  match a with
  | PInt n => float_of_int n
  | PFloat x => Ok x
  end.

(** [a + b] *)
Definition add (a b : PyNumber) : result PyNumber :=
  match a, b with
  | PInt m, PInt n => Ok (PInt (m + n))
  | _, _ => x ← as_float a; y ← as_float b; Ok (PFloat (x + y))
  end.

(** [x / y] on floats. *)
Definition truediv (x y : float) : result float :=
  if y =? 0 then Raise ZeroDivisionError else Ok (x / y).

(** The rational a finite double is. *)
Definition exact (x : float) : option Q :=
  match Prim2SF x with
  | S754_zero _ => Some 0%Q
  | S754_finite s m e => Some (inject_Z (cond_Zopp s (Zpos m)) * 2 ^ e)%Q
  | S754_infinity _ | S754_nan => None
  end.

Definition value (a : PyNumber) : option Q :=
  match a with
  | PInt n => Some (inject_Z n)
  | PFloat x => exact x
  end.

(** A float against an int: Python compares the exact values. *)
Definition compare_int (x : float) (n : Z) : option comparison :=
  match exact x with
  | Some q => Some (q ?= inject_Z n)%Q
  | None => if is_nan x then None else Some (if get_sign x then Lt else Gt)
  end.

(** [x >= n] *)
Definition ge_int (x : float) (n : Z) : bool :=
  match compare_int x n with
  | Some Gt | Some Eq => true
  | Some Lt | None => false
  end.

(** [a <= y] *)
Definition le_float (a : PyNumber) (y : float) : bool :=
  match a with
  | PInt n => ge_int y n
  | PFloat x => x <=? y
  end.

(** [a > 0] *)
Definition gt_zero (a : PyNumber) : bool :=
  match a with
  | PInt n => (0 <? n)%Z
  | PFloat x => 0 <? x
  end.

(** *** String formatting *)

(** The sign and the digits [format] writes for the magnitude: [inf] and
    [nan] for the values that are no number. *)
Definition format_with (digits : Q -> string) (x : float) : string :=
  match exact x with
  | Some q => (if get_sign x then "-" else "") +:+ digits (Qabs q)
  | None => if is_nan x then "nan" else if get_sign x then "-inf" else "inf"
  end.

(** [f"{x:.0f}"] *)
Definition format_0f (x : float) : string :=
  format_with (fun q => pretty (round_half_even q)) x.

(** [f"{x:,.0f}"] *)
Definition format_comma_0f (x : float) : string :=
  format_with (fun q => thousands (pretty (round_half_even q))) x.

(** [f"{x:.1%}"]: the float times 100, one decimal, then the sign [%]. *)
Definition format_1pct (x : float) : string :=
  format_with
    (fun q => let m := round_half_even (q * 10) in
              pretty (m / 10)%Z +:+ "." +:+ pretty (m mod 10)%Z)
    (x * 100) +:+ "%".

(** A float format of a number converts an int first. *)
Definition format_number (fmt : float -> string) (a : PyNumber)
    : result string :=
  x ← as_float a; Ok (fmt x).

(** *** The pydantic models *)

Record ProjectInfo : Type := {
  property_price : float;
  property_type : PropertyType;
  personal_contribution : float;
  loan_duration : Z
}.

Record EmploymentInfo : Type := {
  status : EmploymentStatus;
  net_monthly_income : float;
  years_experience : float;
  trial_period : bool
}.

Record BorrowerInfo : Type := {
  employment : EmploymentInfo;
  age : Z
}.

Record HouseholdInfo : Type := {
  borrowers_count : Z;
  main_borrower : BorrowerInfo;
  co_borrower : option BorrowerInfo;
  children : Z
}.

Record HousingInfo : Type := {
  current_status : HousingStatus;
  monthly_rent : float;
  current_mortgage : float;
  changing_main_residence : bool
}.

(** A value of a consumer-loan [dict], as [json] parses it. *)
Inductive JsonValue : Type :=
  | JNull
  | JBool (b : bool)
  | JInt (n : Z)
  | JFloat (x : float)
  | JStr (s : string)
  | JContainer.

Record FinancialInfo : Type := {
  consumer_loans : list (gmap string JsonValue);
  rental_income : float;
  other_income : float
}.

Record LoanApplication : Type := {
  project : ProjectInfo;
  household : HouseholdInfo;
  housing : HousingInfo;
  financial : FinancialInfo
}.

Record ScoringResult : Type := {
  application_id : string;
  feasibility_score : Z;
  scoring_status : Verdict;
  criteria_details : list (string * string);
  recommendations : list string;
  monthly_payment : float;
  total_budget : float;
  current_interest_rate : float;
  rate_source : string;
  rate_last_update : string
}.

(** The pydantic [Field] constraints: [gt=0] and [ge=0] are comparisons of
    doubles, which an infinity passes and NaN does not. *)
Definition valid_project (p : ProjectInfo) : Prop :=
  (0 <? property_price p) = true /\ (0 <=? personal_contribution p) = true /\
  (5 <= loan_duration p <= 30)%Z.

Definition valid_employment (e : EmploymentInfo) : Prop :=
  (0 <? net_monthly_income e) = true /\ (0 <=? years_experience e) = true.

Definition valid_borrower (b : BorrowerInfo) : Prop :=
  valid_employment (employment b) /\ (18 <= age b <= 80)%Z.

Definition valid_household (h : HouseholdInfo) : Prop :=
  (borrowers_count h = 1 \/ borrowers_count h = 2)%Z /\
  valid_borrower (main_borrower h) /\
  from_option valid_borrower True (co_borrower h) /\
  (0 <= children h <= 20)%Z.

Definition valid_housing (h : HousingInfo) : Prop :=
  (0 <=? monthly_rent h) = true /\ (0 <=? current_mortgage h) = true.

Definition valid_financial (f : FinancialInfo) : Prop :=
  (0 <=? rental_income f) = true /\ (0 <=? other_income f) = true.

Definition validated (a : LoanApplication) : Prop :=
  valid_project (project a) /\ valid_household (household a) /\
  valid_housing (housing a) /\ valid_financial (financial a).

(** *** The rate table *)

Record TauxStorage : Type := {
  date_maj : option string;
  taux : option (gmap string float);
  source : option string
}.

Definition taux_seloger : gmap string float :=
  <["10" := 0.0285]> (<["15" := 0.0303]> (<["20" := 0.0316]>
  (<["25" := 0.0326]> (<["30" := 0.0340]> ∅)))).

Definition taux_storage (now : string) : TauxStorage :=
  {| date_maj := Some now; taux := Some taux_seloger;
     source := Some "seloger.com" |}.

Definition lookup_rate (ts : TauxStorage) (duration : Z) : result float :=
  match taux ts with
  | None => Raise KeyError
  | Some t => Ok (default 0.035 (t !! pretty duration))
  end.

Definition get_current_rate (ts : TauxStorage) (duration : Z) : float :=
  try_except (lookup_rate ts duration) 0.035.

(** *** The scoring service *)

Definition calculate_notary_fees (price : float) (ptype : PropertyType)
    : float :=
  match ptype with
  | neuf => price * 0.03
  | ancien => price * 0.08
  end.

Definition get_current_interest_rate (ts : TauxStorage) (duration : Z)
    : float :=
  get_current_rate ts duration.

Definition calculate_eligible_income (e : EmploymentInfo) : PyNumber :=
  let base_income := net_monthly_income e in
  match status e with
  | cdi => if trial_period e then PInt 0 else PFloat base_income
  | cdd =>
      if 3 <=? years_experience e then PFloat (base_income * 0.7) else PInt 0
  end.

(** [charges + v] for the number [charges] and a value [v] of a [dict]. *)
Definition add_value (charges : PyNumber) (v : JsonValue) : result PyNumber :=
  match v with
  | JInt n => add charges (PInt n)
  | JBool b => add charges (PInt (if b then 1 else 0))
  | JFloat x => add charges (PFloat x)
  | JNull | JStr _ | JContainer => Raise TypeError
  end.

(** The loop [for loan in consumer_loans:
    charges += loan.get('monthly_payment', 0)]. *)
Fixpoint add_consumer_loans (charges : PyNumber)
    (loans : list (gmap string JsonValue)) : result PyNumber :=
  match loans with
  | [] => Ok charges
  | loan :: rest =>
      charges' ← add_value charges
                   (default (JInt 0) (loan !! "monthly_payment"));
      add_consumer_loans charges' rest
  end.

Definition calculate_current_charges (h : HousingInfo) (f : FinancialInfo)
    : result PyNumber :=
  let charges := PInt 0 in
  charges ←
    match current_status h with
    | locataire => add charges (PInt 0)
    | proprietaire =>
        if changing_main_residence h
        then add charges (PFloat (current_mortgage h))
        else Ok charges
    | heberge_gratuit => Ok charges
    end;
  add_consumer_loans charges (consumer_loans f).

Definition calculate_total_eligible_income (h : HouseholdInfo)
    (f : FinancialInfo) : result float :=
  let main_income := calculate_eligible_income (employment (main_borrower h)) in
  let co_income :=
    match co_borrower h with
    | Some b => calculate_eligible_income (employment b)
    | None => PInt 0
    end in
  let rental_income_eligible := rental_income f * 0.7 in
  incomes ← add main_income co_income;
  incomes ← add incomes (PFloat rental_income_eligible);
  incomes ← as_float incomes;
  Ok (incomes + other_income f).

(** *** The five criteria, in the order of the source *)

Definition critere_apport (contribution min_contribution : float)
    : Tally -> Tally :=
  if min_contribution <=? contribution
  then passes "apport" "✅ Apport suffisant" 30
  else fails "apport"
         ("❌ Apport insuffisant (" +:+ format_0f min_contribution +:+
          "€ minimum)")
         ("Augmentez votre apport à " +:+ format_0f min_contribution +:+
          "€ minimum").

Definition critere_revenus (main_income : PyNumber) (total_income : float)
    : Tally -> Tally :=
  if gt_zero main_income
  then passes "revenus"
         ("✅ Revenus éligibles : " +:+ format_comma_0f total_income +:+
          "€/mois") 20
  else fails "revenus" "❌ Revenus non éligibles"
         "Obtenez un CDI ou justifiez 3 ans d'ancienneté en CDD".

Definition critere_endettement (debt_ratio : PyNumber) (t : Tally)
    : result Tally :=
  if le_float debt_ratio 0.33
  then
    shown ← format_number format_1pct debt_ratio;
    Ok (passes "endettement" ("✅ Taux d'endettement : " +:+ shown) 30 t)
  else
    shown ← format_number format_1pct debt_ratio;
    Ok (fails "endettement"
          ("❌ Taux d'endettement trop élevé : " +:+ shown)
          "Réduisez vos charges ou augmentez vos revenus" t).

Definition critere_reste_vivre (remaining : float) (min_remaining : Z)
    (t : Tally) : result Tally :=
  if ge_int remaining min_remaining
  then Ok (passes "reste_vivre"
             ("✅ Reste à vivre : " +:+ format_0f remaining +:+ "€") 10 t)
  else
    shown ← format_number format_0f (PInt min_remaining);
    Ok (fails "reste_vivre"
          ("❌ Reste à vivre insuffisant : " +:+ format_0f remaining +:+ "€")
          ("Assurez-vous d'avoir " +:+ shown +:+ "€ de reste à vivre") t).

Definition critere_age (loan_end_age : Z) : Tally -> Tally :=
  if (loan_end_age <=? 64)%Z
  then passes "age" ("✅ Fin de crédit à " +:+ pretty loan_end_age +:+ " ans") 10
  else fails "age"
         ("❌ Fin de crédit à " +:+ pretty loan_end_age +:+
          " ans (limite 64 ans)")
         "Réduisez la durée du prêt".

(** [(total_charges / total_income) if total_income > 0 else 1] *)
Definition debt_ratio_of (total_charges total_income : float)
    : result PyNumber :=
  if 0 <? total_income
  then ratio ← truediv total_charges total_income; Ok (PFloat ratio)
  else Ok (PInt 1).

Section Engine.

(** [x ** n] for a float [x] and an int [n]. *)
Variable float_pow : float -> Z -> result float.

Definition calculate_monthly_payment (ts : TauxStorage)
    (amount : float) (duration_years : Z) (rate : option float)
    : result float :=
  let rate :=
    match rate with
    | None => get_current_interest_rate ts duration_years
    | Some r => r
    end in
  let monthly_rate := rate / 12 in
  let n_payments := (duration_years * 12)%Z in
  if monthly_rate =? 0
  then n ← float_of_int n_payments; truediv amount n
  else
    growth ← float_pow (1 + monthly_rate) n_payments;
    growth' ← float_pow (1 + monthly_rate) n_payments;
    truediv (amount * (monthly_rate * growth)) (growth' - 1).

(** [rnd] is the randomness [uuid.uuid4()] consumes. *)
Definition evaluate_application (ts : TauxStorage) (rnd : Z)
    (application : LoanApplication) : result ScoringResult :=
  let p := project application in
  let notary_fees :=
    calculate_notary_fees (property_price p) (property_type p) in
  let total_budget := property_price p + notary_fees in
  let loan_amount := total_budget - personal_contribution p in
  total_income ←
    calculate_total_eligible_income (household application)
      (financial application);
  let current_rate := get_current_interest_rate ts (loan_duration p) in
  monthly_payment ←
    calculate_monthly_payment ts loan_amount (loan_duration p)
      (Some current_rate);
  current_charges ←
    calculate_current_charges (housing application) (financial application);
  let household_size :=
    (borrowers_count (household application)
     + children (household application))%Z in
  let min_remaining := (household_size * 750)%Z in
  let t := {| criteria := []; score := 0%Z; recs := [] |} in
  let min_contribution := total_budget * 0.10 in
  let t := critere_apport (personal_contribution p) min_contribution t in
  let main_income :=
    calculate_eligible_income
      (employment (main_borrower (household application))) in
  let t := critere_revenus main_income total_income t in
  charges ← as_float current_charges;
  let total_charges := monthly_payment + charges in
  debt_ratio ← debt_ratio_of total_charges total_income;
  t ← critere_endettement debt_ratio t;
  let remaining := total_income - total_charges in
  t ← critere_reste_vivre remaining min_remaining t;
  let loan_end_age :=
    (age (main_borrower (household application)) + loan_duration p)%Z in
  let t := critere_age loan_end_age t in
  let status := final_status (score t) in
  Ok {| application_id := uuid4_str rnd;
        feasibility_score := score t;
        scoring_status := status;
        criteria_details := criteria t;
        recommendations := recs t;
        monthly_payment := monthly_payment;
        total_budget := total_budget;
        current_interest_rate := current_rate;
        rate_source := default "seloger.com" (source ts);
        rate_last_update := default "Non disponible" (date_maj ts) |}.

End Engine.

(** *** The correctly rounded power

    [m * 2^e] to the power [n] is [m^n * 2^(e*n)], which [binary_normalize]
    rounds to the nearest double; for a negative [n] the inverse is first
    cut to more bits than a double has, with a last bit that records
    whether anything was cut.  A result beyond the doubles raises
    [OverflowError], as Python does when [pow] reports a range error. *)

Definition rounded_power (s : bool) (m : positive) (e n : Z) : spec_float :=
  let sign := s && Z.odd n in
  if (0 <=? n)%Z
  then binary_normalize prec emax (cond_Zopp sign (Zpos m ^ n)) (e * n) sign
  else
    let d := (Zpos m ^ (- n))%Z in
    let k := (Z.log2 d + 64)%Z in
    let q := (2 ^ k / d)%Z in
    let sticky := if (2 ^ k mod d =? 0)%Z then 0%Z else 1%Z in
    binary_normalize prec emax (cond_Zopp sign (2 * q + sticky))
      (e * n - k - 1) sign.

Definition ideal_pow (x : float) (n : Z) : result float :=
  if (n =? 0)%Z then Ok 1
  else
    match Prim2SF x with
    | S754_nan => Ok nan
    | S754_infinity s =>
        Ok (if (n <? 0)%Z then (if s && Z.odd n then -0 else 0)
            else (if s && Z.odd n then neg_infinity else infinity))
    | S754_zero s =>
        if (n <? 0)%Z then Raise ZeroDivisionError
        else Ok (if s && Z.odd n then -0 else 0)
    | S754_finite s m e =>
        let y := SF2Prim (rounded_power s m e n) in
        if is_infinity y then Raise OverflowError else Ok y
    end.

(** *** Observations on a result *)

Definition criterion_passed (key : string) (r : ScoringResult) : bool :=
  match verdict_of key (criteria_details r) with
  | Some v => String.prefix "✅" v
  | None => false
  end.

(** The payments the entries of a list declare, [0] for an entry without
    the key. *)
Definition declared (loans : list (gmap string JsonValue)) : list JsonValue :=
  map (fun loan => default (JInt 0) (loan !! "monthly_payment")) loans.

(** The sum of Python, from left to right. *)
Fixpoint sum_from (start : PyNumber) (values : list JsonValue)
    : result PyNumber :=
  match values with
  | [] => Ok start
  | v :: rest => s ← add_value start v; sum_from s rest
  end.

(** The integer a value is, when it is an [int] or a [bool]. *)
Definition as_int (v : JsonValue) : option Z :=
  match v with
  | JInt n => Some n
  | JBool b => Some (if b then 1 else 0)%Z
  | _ => None
  end.

Definition is_integer (v : JsonValue) : Prop := is_Some (as_int v).


Definition integer_sum (values : list JsonValue) : Z :=
  foldr (fun v acc => default 0 (as_int v) + acc)%Z 0%Z values.


(** A value [+] rejects with [TypeError]. *)
Definition not_a_number (v : JsonValue) : Prop :=
  match v with
  | JNull | JStr _ | JContainer => True
  | JBool _ | JInt _ | JFloat _ => False
  end.

(** What a criterion does to the tally: one more verdict under [key], the
    weight when it passed, the advice when it failed. *)
Definition judged (key : string) (weight : Z) (passed : bool)
    (advice : string) (t t' : Tally) : Prop :=
  exists verdict,
    String.prefix "✅" verdict = passed /\
    criteria t' = (criteria t ++ [(key, verdict)])%list /\
    score t' = (score t + points weight passed)%Z /\
    recs t' = (recs t ++ (if passed then [] else [advice]))%list.

(** A double that is not strictly of the sign opposite to [s]: a zero, NaN,
    or a finite or infinite value of sign [s] ([true] is the sign minus). *)
Definition weakly (s : bool) (f : spec_float) : Prop :=
  match f with
  | S754_finite s' _ _ | S754_infinity s' => s' = s
  | S754_zero _ | S754_nan => True
  end.

(** *** The intermediate quantities of [evaluate_application] *)

Section Evaluation.

Variable float_pow : float -> Z -> result float.
Variable ts : TauxStorage.
Variable a : LoanApplication.

Definition budget : float :=
  property_price (project a)
  + calculate_notary_fees (property_price (project a))
      (property_type (project a)).

Definition loan_amount : float :=
  budget - personal_contribution (project a).

Definition income : result float :=
  calculate_total_eligible_income (household a) (financial a).

Definition rate : float :=
  get_current_interest_rate ts (loan_duration (project a)).

Definition payment : result float :=
  calculate_monthly_payment float_pow ts loan_amount
    (loan_duration (project a)) (Some rate).

Definition charges : result PyNumber :=
  calculate_current_charges (housing a) (financial a).

Definition min_remaining : Z :=
  ((borrowers_count (household a) + children (household a)) * 750)%Z.

(** The tally after the first two criteria. *)
Definition tally2 (ti : float) : Tally :=
  critere_revenus
    (calculate_eligible_income (employment (main_borrower (household a)))) ti
    (critere_apport (personal_contribution (project a)) (budget * 0.10)
       {| criteria := []; score := 0%Z; recs := [] |}).

Definition result_of (rnd : Z) (mp : float) (t : Tally) : ScoringResult :=
  let t :=
    critere_age
      (age (main_borrower (household a)) + loan_duration (project a))%Z t in
  {| application_id := uuid4_str rnd;
     feasibility_score := score t;
     scoring_status := final_status (score t);
     criteria_details := criteria t;
     recommendations := recs t;
     monthly_payment := mp;
     total_budget := budget;
     current_interest_rate := rate;
     rate_source := default "seloger.com" (source ts);
     rate_last_update := default "Non disponible" (date_maj ts) |}.

End Evaluation.

(** *** Sample inputs *)

Definition now : string := "2025-01-01T09:00:00".

Definition ts : TauxStorage := taux_storage now.

Definition salarie (st : EmploymentStatus) (income years : float)
    (trial : bool) : BorrowerInfo :=
  {| employment := {| status := st; net_monthly_income := income;
                      years_experience := years; trial_period := trial |};
     age := 30 |}.

Definition dossier (price : float) (ptype : PropertyType)
    (contribution : float) (duration : Z) (b : BorrowerInfo) (h : HousingInfo)
    (loans : list (gmap string JsonValue)) (rental : float)
    : LoanApplication :=
  {| project := {| property_price := price; property_type := ptype;
                   personal_contribution := contribution;
                   loan_duration := duration |};
     household := {| borrowers_count := 1; main_borrower := b;
                     co_borrower := None; children := 0 |};
     housing := h;
     financial := {| consumer_loans := loans; rental_income := rental;
                     other_income := 0 |} |}.

Definition tenant : HousingInfo :=
  {| current_status := locataire; monthly_rent := 0;
     current_mortgage := 0; changing_main_residence := true |}.

Definition owner (mortgage : float) : HousingInfo :=
  {| current_status := proprietaire; monthly_rent := 0;
     current_mortgage := mortgage; changing_main_residence := true |}.

Definition loan (v : JsonValue) : gmap string JsonValue :=
  {[ "monthly_payment" := v ]}.

(** The example of the specification. *)
Definition exemple : LoanApplication :=
  dossier 200000 ancien 20000 20 (salarie cdi 3000 5 false) tenant [] 0.

(** An over-funded purchase with a consumer loan of 1200.0. *)
Definition surfinance : LoanApplication :=
  dossier 100000 neuf 200000 10 (salarie cdi 3000 5 false) tenant
    [loan (JFloat 1200)] 0.

(** The same purchase with a consumer loan whose payment is the int
    [10**400]. *)
Definition surfinance_enorme : LoanApplication :=
  dossier 100000 neuf 200000 10 (salarie cdi 3000 5 false) tenant
    [loan (JInt (10 ^ 400))] 0.

(** A fixed-term borrower with 2600 a month and three years of
    experience. *)
Definition cdd_2600 : EmploymentInfo :=
  {| status := cdd; net_monthly_income := 2600; years_experience := 3;
     trial_period := false |}.


Definition finances : FinancialInfo :=
  {| consumer_loans := [loan (JFloat 150.5); {[ "label" := JStr "auto" ]};
                        loan (JInt 80)];
     rental_income := 0; other_income := 0 |}.

(** Two consumer loans of 80 and 120, ints, in both orders. *)
Definition finances_entieres : FinancialInfo :=
  {| consumer_loans := [loan (JInt 80); loan (JInt 120)];
     rental_income := 0; other_income := 0 |}.

Definition finances_entieres_inverse : FinancialInfo :=
  {| consumer_loans := [loan (JInt 120); loan (JInt 80)];
     rental_income := 0; other_income := 0 |}.

(** The example with a consumer loan whose payment is a string. *)
Definition exemple_mal_type : LoanApplication :=
  dossier 200000 ancien 20000 20 (salarie cdi 3000 5 false) tenant
    [loan (JFloat 150.5); loan (JStr "cent")] 0.

(** What Python answers for [exemple] and for [surfinance]. *)
Definition resultat_exemple : ScoringResult :=
  {| application_id := "00000000-0000-4000-8000-000000000000";
     feasibility_score := 40;
     scoring_status := difficile;
     criteria_details :=
       [("apport", "❌ Apport insuffisant (21600€ minimum)");
        ("revenus", "✅ Revenus éligibles : 3,000€/mois");
        ("endettement", "❌ Taux d'endettement trop élevé : 36.8%");
        ("reste_vivre", "✅ Reste à vivre : 1897€");
        ("age", "✅ Fin de crédit à 50 ans")];
     recommendations :=
       ["Augmentez votre apport à 21600€ minimum";
        "Réduisez vos charges ou augmentez vos revenus"];
     monthly_payment := 1102.7768799656642;
     total_budget := 216000;
     current_interest_rate := 0.0316;
     rate_source := "seloger.com";
     rate_last_update := now |}.

Definition resultat_surfinance : ScoringResult :=
  {| application_id := "00000000-0000-4000-8000-000000000000";
     feasibility_score := 100;
     scoring_status := favorable;
     criteria_details :=
       [("apport", "✅ Apport suffisant");
        ("revenus", "✅ Revenus éligibles : 3,000€/mois");
        ("endettement", "✅ Taux d'endettement : 9.0%");
        ("reste_vivre", "✅ Reste à vivre : 2730€");
        ("age", "✅ Fin de crédit à 40 ans")];
     recommendations := [];
     monthly_payment := -929.9379024915318;
     total_budget := 103000;
     current_interest_rate := 0.0285;
     rate_source := "seloger.com";
     rate_last_update := now |}.

End Doubles.

(** ** Properties *)

Section Reflection.

Local Open Scope Q_scope.

Lemma Qlt_bool_iff (x y : Q) : Qlt_bool x y = true <-> x < y.
Proof.
  unfold Qlt_bool. rewrite negb_true_iff, <- not_true_iff_false, Qle_bool_iff.
  split; [apply Qnot_le_lt | apply Qlt_not_le].
Qed.

Lemma Qeq_bool_false (x y : Q) : ~ x == y -> Qeq_bool x y = false.
Proof.
  intros H. apply not_true_iff_false. now rewrite Qeq_bool_iff.
Qed.

End Reflection.

(** C6: the rate of a duration is the entry of the table under the decimal
    writing of the duration, and 0.035 when the table has no such entry or
    is missing; the lookup itself may fail but [get_current_rate] always
    returns.  In the table of the source the five listed durations give their
    rates and 7 years the fallback. *)
Theorem rate_lookup_falls_back (ts : TauxStorage) (duration : Z) :
  TauxService.get_current_rate ts duration =
    match taux ts with
    | Some t =>
        match t !! pretty duration with
        | Some r => r
        | None => 35 # 1000
        end
    | None => 35 # 1000
    end /\
  (taux ts = None -> TauxService.lookup_rate ts duration = Raise KeyError) /\
  map (TauxService.get_current_rate (taux_storage Samples.now))
      [10; 15; 20; 25; 30]%Z
    = [285 # 10000; 303 # 10000; 316 # 10000; 326 # 10000; 340 # 10000] /\
  TauxService.get_current_rate (taux_storage Samples.now) 7 = 35 # 1000.
Proof.
  unfold TauxService.get_current_rate, TauxService.lookup_rate.
  repeat split.
  - destruct (taux ts) as [t|]; simpl; [|reflexivity].
    now destruct (t !! pretty duration).
  - now intros ->.
Qed.

(** ** The shape of an evaluation *)

Section EvaluationShape.

Variable ts : TauxStorage.
Variable a : LoanApplication.

Lemma evaluate_application_eq (rnd : Z) :
  evaluate_application ts rnd a =
    (mp ← payment ts a; cc ← charges a; d ← ratio a mp cc;
     Ok (scoring ts a rnd mp cc d)).
Proof. reflexivity. Qed.

Lemma evaluate_application_Ok (rnd : Z) (r : ScoringResult) :
  evaluate_application ts rnd a = Ok r ->
  exists mp cc d,
    payment ts a = Ok mp /\ charges a = Ok cc /\ ratio a mp cc = Ok d /\
    r = scoring ts a rnd mp cc d.
Proof.
  rewrite evaluate_application_eq. unfold mbind, result_bind.
  destruct (payment ts a) as [mp|] eqn:Hmp; [|discriminate].
  destruct (charges a) as [cc|] eqn:Hcc; [|discriminate].
  destruct (ratio a mp cc) as [d|] eqn:Hd; [|discriminate].
  intros [= <-]. now exists mp, cc, d.
Qed.

Lemma anonymous_scoring (rnd rnd' : Z) (mp cc d : Q) :
  anonymous (scoring ts a rnd mp cc d) = anonymous (scoring ts a rnd' mp cc d).
Proof. reflexivity. Qed.

End EvaluationShape.

Lemma anonymous_evaluate (ts : TauxStorage) (a : LoanApplication)
    (rnd rnd' : Z) :
  anonymous <$> evaluate_application ts rnd a =
  anonymous <$> evaluate_application ts rnd' a.
Proof.
  rewrite !evaluate_application_eq. unfold mbind, result_bind, fmap, result_fmap.
  destruct (payment ts a) as [mp|]; [|reflexivity].
  destruct (charges a) as [cc|]; [|reflexivity].
  destruct (ratio a mp cc) as [d|]; [|reflexivity].
  f_equal.
Qed.

(** C3, as the code has it: two evaluations of one application under one
    rate table agree on everything but the identifier, whatever random
    bytes each of them draws. *)
Theorem evaluation_deterministic_up_to_id
    (ts : TauxStorage) (a : LoanApplication) (rnd rnd' : Z) :
  anonymous <$> evaluate_application ts rnd a =
  anonymous <$> evaluate_application ts rnd' a.
Proof. apply anonymous_evaluate. Qed.

(** C9: two applications that differ only in [housing.monthly_rent] get the
    same result, identifier apart. *)
Theorem monthly_rent_never_read
    (ts : TauxStorage) (a a' : LoanApplication) (rnd rnd' : Z) :
  project a = project a' ->
  household a = household a' ->
  financial a = financial a' ->
  current_status (housing a) = current_status (housing a') ->
  current_mortgage (housing a) = current_mortgage (housing a') ->
  changing_main_residence (housing a) = changing_main_residence (housing a') ->
  anonymous <$> evaluate_application ts rnd a =
  anonymous <$> evaluate_application ts rnd' a'.
Proof.
  destruct a as [p h [st rent mo ch] f], a' as [p' h' [st' rent' mo' ch'] f'].
  simpl. intros <- <- <- <- <- <-.
  rewrite (anonymous_evaluate ts _ rnd rnd').
  reflexivity.
Qed.

(** ** The monthly payment *)

Section MonthlyPayment.

Local Open Scope Q_scope.

Lemma truediv_Ok (x y : Q) : ~ y == 0 -> truediv x y = Ok (x / y).
Proof. intros H. unfold truediv. now rewrite Qeq_bool_false. Qed.

Lemma pow_Ok (x : Q) (n : Z) : 0 < x -> pow x n = Ok (x ^ n).
Proof.
  intros H. unfold pow. rewrite Qeq_bool_false; [reflexivity|].
  intros E. rewrite E in H. now apply Qlt_irrefl in H.
Qed.

(** For a non-negative rate and a positive term the payment is defined and
    is the principal times a positive factor. *)
Lemma monthly_payment_factor (ts : TauxStorage) (amount : Q) (years : Z)
    (r : Q) :
  0 <= r -> (0 < years)%Z ->
  exists mp k,
    calculate_monthly_payment ts amount years (Some r) = Ok mp /\
    0 < k /\ mp == amount * k.
Proof.
  intros Hr Hy. unfold calculate_monthly_payment.
  assert (Hn : 0 < inject_Z (years * 12)).
  { change 0 with (inject_Z 0). rewrite <- Zlt_Qlt. lia. }
  destruct (Qeq_bool (r / 12) 0) eqn:E.
  - exists (amount / inject_Z (years * 12)), (/ inject_Z (years * 12)).
    split; [|split].
    + apply truediv_Ok. intros H. rewrite H in Hn. now apply Qlt_irrefl in Hn.
    + now apply Qinv_lt_0_compat.
    + reflexivity.
  - assert (Hi : 0 < r / 12).
    { apply Qle_lteq in Hr. destruct Hr as [Hr|Hr].
      - apply Qlt_shift_div_l; [reflexivity|]. now rewrite Qmult_0_l.
      - exfalso. apply not_true_iff_false in E. apply E.
        apply Qeq_bool_iff. rewrite <- Hr. reflexivity. }
    set (i := r / 12) in *.
    assert (H1 : 1 < 1 + i) by lra.
    assert (Hg : 1 < (1 + i) ^ (years * 12)).
    { apply Qpower_1_lt; [assumption|lia]. }
    set (g := (1 + i) ^ (years * 12)) in *.
    assert (Hd : 0 < / (g - 1)) by (apply Qinv_lt_0_compat; lra).
    exists (amount * (i * g) / (g - 1)), (i * g * / (g - 1)).
    split; [|split].
    + rewrite pow_Ok by lra. unfold mbind, result_bind. fold g.
      apply truediv_Ok. lra.
    + apply Qmult_lt_0_compat; [apply Qmult_lt_0_compat|]; lra.
    + unfold Qdiv. ring.
Qed.

End MonthlyPayment.

(** ** Current charges *)

Section CurrentCharges.

Local Open Scope Q_scope.

Lemma add_value_numeric (c : Q) (loan : gmap string PyValue) :
  numeric_payment loan ->
  exists c', add_value c (default (PyNum 0) (loan !! "monthly_payment")) = Ok c'
             /\ c' == c + declared_payment loan.
Proof.
  unfold numeric_payment, declared_payment.
  destruct (loan !! "monthly_payment") as [[|[|]|x|s|]|]; simpl;
    intros H; try contradiction; eexists; (split; [reflexivity|]);
    reflexivity.
Qed.

Lemma add_consumer_loans_numeric (loans : list (gmap string PyValue)) :
  Forall numeric_payment loans ->
  forall c, exists c',
    add_consumer_loans c loans = Ok c' /\ c' == c + sum_payments loans.
Proof.
  induction 1 as [|loan rest Hloan _ IH]; intros c; simpl.
  - exists c. split; [reflexivity|ring].
  - destruct (add_value_numeric c loan Hloan) as (c1 & -> & E1).
    destruct (IH c1) as (c2 & E & E2). exists c2. split; [exact E|].
    rewrite E2, E1. ring.
Qed.

Lemma add_value_proper (c c' : Q) (v : PyValue) :
  c == c' -> same_outcome (add_value c v) (add_value c' v).
Proof.
  intros E. destruct v as [|b|x|s|]; simpl; try reflexivity; now rewrite E.
Qed.

Lemma add_consumer_loans_proper (loans : list (gmap string PyValue)) :
  forall c c', c == c' ->
    same_outcome (add_consumer_loans c loans) (add_consumer_loans c' loans).
Proof.
  induction loans as [|loan rest IH]; intros c c' E; simpl; [exact E|].
  pose proof (add_value_proper c c'
                (default (PyNum 0) (loan !! "monthly_payment")) E) as H.
  destruct (add_value c _) as [c1|e1], (add_value c' _) as [c1'|e1'];
    simpl in *; try contradiction; [now apply IH | exact H].
Qed.

Lemma same_outcome_refl (c : result Q) : same_outcome c c.
Proof. destruct c; simpl; reflexivity. Qed.

(** Leaving out an entry without the key changes nothing. *)
Lemma add_consumer_loans_skip (l1 l2 : list (gmap string PyValue))
    (d : gmap string PyValue) :
  d !! "monthly_payment" = None ->
  forall c,
    same_outcome (add_consumer_loans c (l1 ++ d :: l2))
                 (add_consumer_loans c (l1 ++ l2)).
Proof.
  intros Hd. induction l1 as [|loan rest IH]; intros c; simpl.
  - rewrite Hd. simpl. apply add_consumer_loans_proper. ring.
  - destruct (add_value c _) as [c1|e1]; simpl; [apply IH | reflexivity].
Qed.

End CurrentCharges.

Lemma current_charges_numeric (h : HousingInfo) (f : FinancialInfo) :
  Forall numeric_payment (consumer_loans f) ->
  exists c,
    calculate_current_charges h f = Ok c /\
    (c == housing_charge h + sum_payments (consumer_loans f))%Q.
Proof.
  intros Hf. unfold calculate_current_charges.
  destruct (add_consumer_loans_numeric _ Hf
              match current_status h with
              | locataire => (0 + 0)%Q
              | proprietaire =>
                  if changing_main_residence h
                  then (0 + current_mortgage h)%Q else 0%Q
              | heberge_gratuit => 0%Q
              end) as (c & E & Ec).
  exists c. split; [exact E|].
  rewrite Ec. unfold housing_charge.
  destruct (current_status h), (changing_main_residence h); ring.
Qed.

(** C10: a consumer-loan entry without the key ['monthly_payment'] counts
    for 0 and raises nothing: the charges are those of the list without
    the entry, and a list made of such entries only leaves the housing
    charge. *)
Theorem loan_without_payment_counts_zero (h : HousingInfo) (f : FinancialInfo)
    (l1 l2 : list (gmap string PyValue)) (d : gmap string PyValue) :
  d !! "monthly_payment" = None ->
  same_outcome (calculate_current_charges h (with_loans f (l1 ++ d :: l2)))
               (calculate_current_charges h (with_loans f (l1 ++ l2))) /\
  exists c,
    calculate_current_charges h (with_loans f [d]) = Ok c /\
    (c == housing_charge h)%Q.
Proof.
  intros Hd. split.
  - unfold calculate_current_charges. simpl.
    now apply add_consumer_loans_skip.
  - unfold calculate_current_charges. simpl. rewrite Hd. simpl.
    eexists. split; [reflexivity|]. unfold housing_charge.
    destruct (current_status h), (changing_main_residence h); ring.
Qed.

(** ** Eligible income is never negative *)

Section Income.

Local Open Scope Q_scope.

Lemma eligible_income_nonneg (e : EmploymentInfo) :
  valid_employment e -> 0 <= calculate_eligible_income e.
Proof.
  intros [Hi _]. unfold calculate_eligible_income.
  destruct (status e), (trial_period e),
    (Qle_bool 3 (years_experience e)); lra.
Qed.

Lemma total_eligible_income_nonneg (h : HouseholdInfo) (f : FinancialInfo) :
  valid_household h -> valid_financial f ->
  0 <= calculate_total_eligible_income h f.
Proof.
  intros (_ & [Hm _] & Hco & _) [Hr Ho].
  unfold calculate_total_eligible_income.
  pose proof (eligible_income_nonneg _ Hm) as H1.
  assert (H2 : 0 <= match co_borrower h with
                    | Some b => calculate_eligible_income (employment b)
                    | None => 0
                    end).
  { destruct (co_borrower h) as [b|]; simpl in Hco; [|lra].
    now apply eligible_income_nonneg, Hco. }
  lra.
Qed.

(** Under validation the guard [total_income > 0] fails only at 0. *)
Lemma ratio_guard (a : LoanApplication) :
  validated a -> Qlt_bool 0 (income a) = negb (Qeq_bool (income a) 0).
Proof.
  intros (_ & Hh & _ & Hf).
  pose proof (total_eligible_income_nonneg _ _ Hh Hf) as H. fold (income a) in H.
  destruct (Qlt_bool 0 (income a)) eqn:E.
  - apply Qlt_bool_iff in E. rewrite Qeq_bool_false; [reflexivity|]. lra.
  - apply not_true_iff_false in E. rewrite Qlt_bool_iff in E.
    assert (E0 : income a == 0) by lra.
    apply Qeq_bool_iff in E0. now rewrite E0.
Qed.

End Income.

(** ** The score and the verdicts *)

Ltac criteria_cases :=
  unfold scoring, tally, critere_apport, critere_revenus, critere_endettement,
    critere_reste_vivre, critere_age;
  repeat match goal with
         | |- context [if ?c then passes _ _ _ else fails _ _ _] =>
             destruct c
         end.

Section Verdicts.

Variable ts : TauxStorage.
Variable a : LoanApplication.
Variables (rnd : Z) (mp cc d : Q).

Let r := scoring ts a rnd mp cc d.

Lemma passed_apport :
  criterion_passed "apport" r =
    Qle_bool (budget a * (10 # 100)) (personal_contribution (project a)).
Proof. subst r. criteria_cases; reflexivity. Qed.

Lemma passed_revenus :
  criterion_passed "revenus" r =
    Qlt_bool 0 (calculate_eligible_income
                  (employment (main_borrower (household a)))).
Proof. subst r. criteria_cases; reflexivity. Qed.

Lemma passed_endettement :
  criterion_passed "endettement" r = Qle_bool d (33 # 100).
Proof. subst r. criteria_cases; reflexivity. Qed.

Lemma passed_reste_vivre :
  criterion_passed "reste_vivre" r =
    Qle_bool
      (inject_Z ((borrowers_count (household a) + children (household a))
                 * 750))
      (income a - (mp + cc)).
Proof. subst r. criteria_cases; reflexivity. Qed.

Lemma passed_age :
  criterion_passed "age" r =
    (age (main_borrower (household a)) + loan_duration (project a) <=? 64)%Z.
Proof. subst r. criteria_cases; reflexivity. Qed.

Lemma score_of_conditions :
feasibility_score r =
  (points 30 (Qle_bool (budget a * (10 # 100))
                (personal_contribution (project a)))
   + points 20 (Qlt_bool 0 (calculate_eligible_income
                              (employment (main_borrower (household a)))))
   + points 30 (Qle_bool d (33 # 100))
   + points 10 (Qle_bool
                  (inject_Z ((borrowers_count (household a)
                              + children (household a)) * 750))
                  (income a - (mp + cc)))
   + points 10 (age (main_borrower (household a))
                + loan_duration (project a) <=? 64)%Z)%Z.
Proof. subst r. criteria_cases; reflexivity. Qed.

(** The score is the sum of the weights of the criteria that passed. *)
Lemma score_of_verdicts :
feasibility_score r =
  (points 30 (criterion_passed "apport" r)
   + points 20 (criterion_passed "revenus" r)
   + points 30 (criterion_passed "endettement" r)
   + points 10 (criterion_passed "reste_vivre" r)
   + points 10 (criterion_passed "age" r))%Z.
Proof.
  rewrite passed_apport, passed_revenus, passed_endettement,
    passed_reste_vivre, passed_age.
  apply score_of_conditions.
Qed.

(** The advice of the debt criterion is listed exactly when it failed. *)
Lemma advice_endettement :
  In "Réduisez vos charges ou augmentez vos revenus" (recommendations r)
  <-> criterion_passed "endettement" r = false.
Proof.
  subst r. criteria_cases; simpl; split; intros H;
    try reflexivity; try discriminate H; intuition discriminate.
Qed.

(** The advice of the contribution criterion is the first one when it
    failed. *)
Lemma advice_apport :
  criterion_passed "apport" r = false ->
  head (recommendations r) =
    Some ("Augmentez votre apport à " +:+
          format_0f (budget a * (10 # 100)) +:+ "€ minimum").
Proof.
  subst r. criteria_cases; simpl; intros H;
    try reflexivity; discriminate H.
Qed.

End Verdicts.

(** ** Evaluation of a validated application *)

Section Validated.

Local Open Scope Q_scope.

(** Every rate of the table of the source, fallback included, is
    positive. *)
Lemma seloger_rate_nonneg (now : string) (a : LoanApplication) :
  0 <= rate (taux_storage now) a.
Proof.
  unfold rate, get_current_interest_rate, TauxService.get_current_rate,
    TauxService.lookup_rate. simpl.
  destruct (taux_seloger !! _) as [q|] eqn:E; simpl; [|lra].
  unfold taux_seloger in E.
  repeat (apply lookup_insert_Some in E;
          destruct E as [[_ <-]|[_ E]]; [lra|]).
  now rewrite lookup_empty in E.
Qed.

Lemma evaluate_application_total (ts : TauxStorage) (a : LoanApplication)
    (rnd : Z) :
  validated a ->
  Forall numeric_payment (consumer_loans (financial a)) ->
  0 <= rate ts a ->
  exists mp cc d k,
    payment ts a = Ok mp /\ charges a = Ok cc /\ ratio a mp cc = Ok d /\
    evaluate_application ts rnd a = Ok (scoring ts a rnd mp cc d) /\
    0 < k /\ mp == (budget a - personal_contribution (project a)) * k /\
    d = (if Qeq_bool (income a) 0 then 1 else (mp + cc) / income a).
Proof.
  intros Hv Hl Hr.
  assert (Hy : (0 < loan_duration (project a))%Z).
  { destruct Hv as ((_ & _ & H) & _). lia. }
  destruct (monthly_payment_factor ts
              (budget a - personal_contribution (project a))
              _ _ Hr Hy) as (mp & k & Hmp & Hk & Ek).
  destruct (current_charges_numeric (housing a) _ Hl) as (cc & Hcc & _).
  exists mp, cc, (if Qeq_bool (income a) 0 then 1 else (mp + cc) / income a), k.
  assert (Hd : ratio a mp cc =
               Ok (if Qeq_bool (income a) 0 then 1 else (mp + cc) / income a)).
  { unfold ratio. rewrite (ratio_guard a Hv).
    destruct (Qeq_bool (income a) 0) eqn:E; simpl; [reflexivity|].
    unfold truediv. now rewrite E. }
  repeat split; try assumption.
  rewrite evaluate_application_eq. unfold payment, charges.
  rewrite Hmp, Hcc. unfold mbind, result_bind. now rewrite Hd.
Qed.

Lemma points_bounds (w : Z) (b : bool) : (0 <= w)%Z -> (0 <= points w b <= w)%Z.
Proof. destruct b; simpl; lia. Qed.

End Validated.

(** ** The sample applications *)

Section SampleFacts.

Local Open Scope Q_scope.

Lemma validated_dossier (price : Q) (ptype : PropertyType) (contribution : Q)
    (duration : Z) (h : HousingInfo) (loans : list (gmap string PyValue)) :
  0 < price -> 0 <= contribution -> (5 <= duration <= 30)%Z ->
  valid_housing h ->
  validated (Samples.dossier price ptype contribution duration h loans).
Proof.
  intros Hp Hc Hd Hh. unfold validated, valid_project, valid_household,
    valid_borrower, valid_employment, valid_financial. simpl.
  repeat split; try assumption; try lia; try lra; apply Hh.
Qed.

Lemma valid_tenant (rent : Q) : 0 <= rent -> valid_housing (Samples.tenant rent).
Proof. intros H. unfold valid_housing. simpl. split; lra. Qed.

Lemma valid_owner (mortgage : Q) (changing : bool) :
  0 <= mortgage -> valid_housing (Samples.owner mortgage changing).
Proof. intros H. unfold valid_housing. simpl. split; lra. Qed.

Lemma validated_exemple : validated Samples.exemple.
Proof.
  apply validated_dossier; [lra | lra | lia | apply valid_tenant; lra].
Qed.

Lemma numeric_exemple :
  Forall numeric_payment (consumer_loans (financial Samples.exemple)).
Proof. constructor. Qed.

(** The payment of the example, between 1102 and 1104. *)
Lemma exemple_payment (mp : Q) :
  payment (taux_storage Samples.now) Samples.exemple = Ok mp ->
  1102 <= mp <= 1104.
Proof.
  intros E.
  assert (H : match payment (taux_storage Samples.now) Samples.exemple with
              | Ok x => Qle_bool 1102 x && Qle_bool x 1104
              | Raise _ => false
              end = true) by (vm_compute; reflexivity).
  rewrite E in H. apply andb_true_iff in H.
  now rewrite !Qle_bool_iff in H.
Qed.

End SampleFacts.

(** C3, as stated, fails: the identifier is drawn afresh by each call, so
    two evaluations of the same validated application under the same table
    differ. *)
Lemma evaluation_not_deterministic :
  ~ (forall (ts : TauxStorage) (a : LoanApplication) (rnd rnd' : Z),
       validated a ->
       evaluate_application ts rnd a = evaluate_application ts rnd' a).
Proof.
  intros H.
  specialize (H (taux_storage Samples.now) Samples.exemple 0%Z 1%Z
                validated_exemple).
  destruct (evaluate_application_total (taux_storage Samples.now)
              Samples.exemple 0 validated_exemple numeric_exemple
              (seloger_rate_nonneg _ _))
    as (mp & cc & d & k & _ & _ & _ & E & _).
  destruct (evaluate_application_total (taux_storage Samples.now)
              Samples.exemple 1 validated_exemple numeric_exemple
              (seloger_rate_nonneg _ _))
    as (mp' & cc' & d' & k' & _ & _ & _ & E' & _).
  rewrite E, E' in H.
  apply (f_equal (fun c => match c with
                           | Ok r => application_id r
                           | Raise _ => ""
                           end)) in H.
  change (uuid4_str 0 = uuid4_str 1) in H.
  vm_compute in H. discriminate H.
Qed.

(** C8, as the code has it: for the example of the specification the notary
    fee is 16000, the budget 216000, the loan 196000, the rate 0.0316 and
    the monthly payment within 1 of 1103; the contribution of 20000 is
    below the 21600 required, so the contribution criterion fails with its
    recommendation, and the score is below 100. *)
Theorem exemple_evaluation (rnd : Z) :
  let p := project Samples.exemple in
  (calculate_notary_fees (property_price p) (property_type p) == 16000)%Q /\
  exists r,
    evaluate_application (taux_storage Samples.now) rnd Samples.exemple = Ok r /\
    (total_budget r == 216000)%Q /\
    (total_budget r - personal_contribution p == 196000)%Q /\
    current_interest_rate r = 316 # 10000 /\
    (1103 - 1 <= monthly_payment r <= 1103 + 1)%Q /\
    (total_budget r * (10 # 100) == 21600)%Q /\
    (personal_contribution p < total_budget r * (10 # 100))%Q /\
    criterion_passed "apport" r = false /\
    In "Augmentez votre apport à 21600€ minimum" (recommendations r) /\
    (feasibility_score r < 100)%Z.
Proof.
  cbv zeta. split; [reflexivity|].
  destruct (evaluate_application_total (taux_storage Samples.now)
              Samples.exemple rnd validated_exemple numeric_exemple
              (seloger_rate_nonneg _ _))
    as (mp & cc & d & k & Hmp & _ & _ & E & _).
  exists (scoring (taux_storage Samples.now) Samples.exemple rnd mp cc d).
  split; [exact E|].
  assert (Ha : criterion_passed "apport"
                 (scoring (taux_storage Samples.now) Samples.exemple rnd mp cc d)
               = false) by (rewrite passed_apport; reflexivity).
  split; [reflexivity|]. split; [reflexivity|]. split; [reflexivity|].
  split; [apply (exemple_payment mp Hmp)|].
  split; [reflexivity|]. split; [reflexivity|]. split; [exact Ha|]. split.
  - pose proof (advice_apport _ _ rnd mp cc d Ha) as H.
    destruct (recommendations _) as [|x l]; [discriminate H|].
    injection H as ->. left. vm_compute. reflexivity.
  - rewrite score_of_verdicts, Ha.
    repeat match goal with
           | |- context [criterion_passed ?key ?r] =>
               destruct (criterion_passed key r)
           end; simpl; lia.
Qed.

(** C8, as stated, fails: the payment of the example is not within 1 of
    1121. *)
Lemma exemple_payment_not_1121 :
  exists r,
    evaluate_application (taux_storage Samples.now) 0 Samples.exemple = Ok r /\
    ~ (1121 - 1 <= monthly_payment r <= 1121 + 1)%Q.
Proof.
  destruct (evaluate_application_total (taux_storage Samples.now)
              Samples.exemple 0 validated_exemple numeric_exemple
              (seloger_rate_nonneg _ _))
    as (mp & cc & d & k & Hmp & _ & _ & E & _).
  eexists. split; [exact E|]. simpl monthly_payment.
  pose proof (exemple_payment mp Hmp) as H. lra.
Qed.

(** ** The theorems at the sample applications *)


(** The example of the specification with a rent of 0 and of 950. *)
Lemma monthly_rent_never_read_exemple :
  anonymous <$> evaluate_application Instances.ts 0 Samples.exemple =
  anonymous <$> evaluate_application Instances.ts 1 Instances.exemple_loyer.
Proof.
  apply (monthly_rent_never_read Instances.ts Samples.exemple
           Instances.exemple_loyer 0 1); reflexivity.
Defined.

(** A loan entry that only carries a label. *)
Lemma loan_without_payment_counts_zero_owner :
  Instances.sans_mensualite !! "monthly_payment" = None /\
  same_outcome
    (calculate_current_charges (Samples.owner 700 true)
       (with_loans Instances.finances
          ([Instances.credit] ++ Instances.sans_mensualite :: [])))
    (calculate_current_charges (Samples.owner 700 true)
       (with_loans Instances.finances ([Instances.credit] ++ []))) /\
  exists c,
    calculate_current_charges (Samples.owner 700 true)
      (with_loans Instances.finances [Instances.sans_mensualite]) = Ok c /\
    (c == housing_charge (Samples.owner 700 true))%Q.
Proof.
  assert (H : Instances.sans_mensualite !! "monthly_payment" = None)
    by reflexivity.
  split; [exact H|].
  exact (loan_without_payment_counts_zero (Samples.owner 700 true)
           Instances.finances [Instances.credit] [] Instances.sans_mensualite H).
Defined.

(** ** More on the monthly payment *)

(** X3: a term of 0 years raises [ZeroDivisionError] whatever the amount
    and the rate: the function has no guard on the number of payments. *)
Theorem zero_term_divides_by_zero (ts : TauxStorage) (amount : Q)
    (r : option Q) :
  calculate_monthly_payment ts amount 0 r = Raise ZeroDivisionError.
Proof.
  unfold calculate_monthly_payment.
  destruct (Qeq_bool _ 0); [reflexivity|].
  unfold pow. rewrite andb_false_r. reflexivity.
Qed.

(** ** More on incomes and charges *)

(** X4: the income a lender counts for a borrower lies between 0 and the
    net income declared. *)
Theorem eligible_income_bounds (e : EmploymentInfo) :
  valid_employment e ->
  (0 <= calculate_eligible_income e <= net_monthly_income e)%Q.
Proof.
  intros [Hi _]. unfold calculate_eligible_income.
  destruct (status e), (trial_period e),
    (Qle_bool 3 (years_experience e)); lra.
Qed.

(** ** More on the verdicts *)

Section Structure.

Variable ts : TauxStorage.
Variable a : LoanApplication.
Variables (rnd : Z) (mp cc d : Q).

Let r := scoring ts a rnd mp cc d.

Lemma criteria_keys :
  map fst (criteria_details r)
  = ["apport"; "revenus"; "endettement"; "reste_vivre"; "age"].
Proof. subst r. criteria_cases; reflexivity. Qed.

(** One recommendation per failed criterion. *)
Lemma recommendations_count :
  Z.of_nat (length (recommendations r)) =
    (5 - (points 1 (criterion_passed "apport" r)
          + points 1 (criterion_passed "revenus" r)
          + points 1 (criterion_passed "endettement" r)
          + points 1 (criterion_passed "reste_vivre" r)
          + points 1 (criterion_passed "age" r)))%Z.
Proof.
  subst r.
  rewrite passed_apport, passed_revenus, passed_endettement,
    passed_reste_vivre, passed_age.
  criteria_cases; reflexivity.
Qed.

Lemma status_of_score : scoring_status r = final_status (feasibility_score r).
Proof. reflexivity. Qed.

End Structure.

(** X7: a result always lists the five criteria, in the order apport,
    revenus, endettement, reste_vivre, age, and one recommendation for each
    criterion that failed; the score is 100 exactly when there is no
    recommendation. *)
Theorem verdicts_and_recommendations (ts : TauxStorage) (a : LoanApplication)
    (rnd : Z) (r : ScoringResult) :
  evaluate_application ts rnd a = Ok r ->
  map fst (criteria_details r)
    = ["apport"; "revenus"; "endettement"; "reste_vivre"; "age"] /\
  Z.of_nat (length (recommendations r)) =
    (5 - (points 1 (criterion_passed "apport" r)
          + points 1 (criterion_passed "revenus" r)
          + points 1 (criterion_passed "endettement" r)
          + points 1 (criterion_passed "reste_vivre" r)
          + points 1 (criterion_passed "age" r)))%Z /\
  (feasibility_score r = 100%Z <-> recommendations r = []).
Proof.
  intros E.
  destruct (evaluate_application_Ok ts a rnd r E) as (mp & cc & d & _ & _ & _ & ->).
  split; [apply criteria_keys|]. split; [apply recommendations_count|].
  pose proof (recommendations_count ts a rnd mp cc d) as Hc.
  rewrite score_of_verdicts.
  destruct (recommendations _) as [|x l]; simpl length in Hc;
    repeat match goal with
           | H : context [criterion_passed ?key ?s] |- _ =>
               destruct (criterion_passed key s)
           end; simpl in *; split; intros H; try reflexivity;
    try discriminate H; lia.
Qed.

(** X8: the status is favorable exactly when the contribution and the
    debt-ratio criteria both pass and, besides, either the income criterion
    or both 10-point criteria pass; when the contribution and the
    debt-ratio criteria both fail the status is difficile. *)
Theorem favorable_needs_both_main_criteria (ts : TauxStorage)
    (a : LoanApplication) (rnd : Z) (r : ScoringResult) :
  evaluate_application ts rnd a = Ok r ->
  (scoring_status r = favorable <->
     criterion_passed "apport" r = true /\
     criterion_passed "endettement" r = true /\
     (criterion_passed "revenus" r = true \/
      criterion_passed "reste_vivre" r = true /\
      criterion_passed "age" r = true)) /\
  (criterion_passed "apport" r = false ->
   criterion_passed "endettement" r = false ->
   scoring_status r = difficile).
Proof.
  intros E.
  destruct (evaluate_application_Ok ts a rnd r E) as (mp & cc & d & _ & _ & _ & ->).
  rewrite status_of_score, score_of_verdicts.
  destruct (criterion_passed "apport" _), (criterion_passed "revenus" _),
    (criterion_passed "endettement" _), (criterion_passed "reste_vivre" _),
    (criterion_passed "age" _); vm_compute; intuition congruence.
Qed.

(** X9: declaring a co-borrower whose income is not eligible never raises
    the score: the incomes, the payment and the charges are unchanged and
    the remaining-to-live threshold does not go down. *)
Theorem idle_co_borrower_never_helps (ts : TauxStorage)
    (a a' : LoanApplication) (b : BorrowerInfo) (rnd rnd' : Z)
    (r : ScoringResult) :
  project a' = project a -> housing a' = housing a ->
  financial a' = financial a ->
  main_borrower (household a') = main_borrower (household a) ->
  children (household a') = children (household a) ->
  co_borrower (household a) = None ->
  co_borrower (household a') = Some b ->
  calculate_eligible_income (employment b) = 0%Q ->
  (borrowers_count (household a) <= borrowers_count (household a'))%Z ->
  evaluate_application ts rnd a = Ok r ->
  exists r',
    evaluate_application ts rnd' a' = Ok r' /\
    monthly_payment r' = monthly_payment r /\
    (feasibility_score r' <= feasibility_score r)%Z.
Proof.
  destruct a as [p [n m co ch] h f], a' as [p' [n' m' co' ch'] h' f'].
  simpl. intros -> -> -> -> -> -> -> Hb Hn E.
  set (a := {| project := p;
               household := {| borrowers_count := n; main_borrower := m;
                               co_borrower := None; children := ch |};
               housing := h; financial := f |}) in *.
  set (a' := {| project := p;
                household := {| borrowers_count := n'; main_borrower := m;
                                co_borrower := Some b; children := ch |};
                housing := h; financial := f |}).
  destruct (evaluate_application_Ok ts a rnd r E)
    as (mp & cc & d & Hmp & Hcc & Hd & ->).
  assert (Hi : income a' = income a).
  { unfold income, calculate_total_eligible_income. simpl. now rewrite Hb. }
  exists (scoring ts a' rnd' mp cc d). split; [|split].
  - rewrite evaluate_application_eq.
    change (payment ts a') with (payment ts a).
    change (charges a') with (charges a).
    rewrite Hmp, Hcc. unfold mbind, result_bind.
    unfold ratio in *. rewrite Hi, Hd. reflexivity.
  - reflexivity.
  - rewrite !score_of_conditions. rewrite Hi.
    change (budget a') with (budget a). simpl.
    assert (Hp : (points 10
                    (Qle_bool (inject_Z ((n' + ch) * 750))
                       (income a - (mp + cc)))
                  <= points 10
                       (Qle_bool (inject_Z ((n + ch) * 750))
                          (income a - (mp + cc))))%Z).
    { destruct (Qle_bool (inject_Z ((n' + ch) * 750)) _) eqn:E1;
        destruct (Qle_bool (inject_Z ((n + ch) * 750)) _) eqn:E2;
        simpl; try lia.
      exfalso. apply Qle_bool_iff in E1.
      apply not_true_iff_false in E2. apply E2, Qle_bool_iff.
      eapply Qle_trans; [|exact E1].
      rewrite <- Zle_Qle. lia. }
    lia.
Qed.

(** ** The rates *)

Lemma scraped_table (http : option Z) (now : string) :
  taux (scrape_seloger_rates http now) = Some taux_seloger.
Proof.
  unfold scrape_seloger_rates.
  destruct http as [code|]; [|reflexivity].
  now destruct (negb (code =? 200)%Z).
Qed.

Lemma seloger_lookup (d : Z) :
  taux_seloger !! pretty d =
    if decide (d = 10%Z) then Some (285 # 10000)
    else if decide (d = 15%Z) then Some (303 # 10000)
    else if decide (d = 20%Z) then Some (316 # 10000)
    else if decide (d = 25%Z) then Some (326 # 10000)
    else if decide (d = 30%Z) then Some (340 # 10000)
    else None.
Proof.
  repeat case_decide; subst; try reflexivity.
  unfold taux_seloger.
  assert (Hne : forall k : Z, d <> k -> pretty k <> pretty d).
  { intros k Hk E. apply (inj pretty) in E. congruence. }
  rewrite !lookup_insert_ne;
    [apply lookup_empty
    | apply (Hne 30%Z) | apply (Hne 25%Z) | apply (Hne 20%Z)
    | apply (Hne 15%Z) | apply (Hne 10%Z) ]; assumption.
Qed.

(** X10: with the table of the source, a duration of 10, 15, 20, 25 or 30
    years gets its own rate, below 3.5%, and every other duration gets the
    fallback of 3.5%: a 21-year loan is priced above a 25-year one. *)
Theorem seloger_rate_by_duration (ts : TauxStorage) (d : Z) :
  taux ts = Some taux_seloger ->
  (In d [10; 15; 20; 25; 30]%Z ->
   (285 # 10000 <= TauxService.get_current_rate ts d < 35 # 1000)%Q) /\
  (~ In d [10; 15; 20; 25; 30]%Z ->
   TauxService.get_current_rate ts d = 35 # 1000).
Proof.
  intros Ht. unfold TauxService.get_current_rate, TauxService.lookup_rate.
  rewrite Ht. simpl. rewrite seloger_lookup. split.
  - intros [<- | [<- | [<- | [<- | [<- | []]]]]]; simpl; lra.
  - intros Hn. repeat case_decide; subst; simpl; try reflexivity;
      exfalso; apply Hn; simpl; tauto.
Qed.

(** X11: a refresh never changes a rate: whatever the request to SeLoger
    gives and whatever the table was, the new table holds the five rates
    of the source; only the date, and the source label (seloger.com after
    a 200 response, fallback otherwise) depend on the outcome. *)
Theorem refresh_keeps_rates (http : option Z) (now : string)
    (ts : TauxStorage) :
  taux (update_monthly_rates http now ts) = Some taux_seloger /\
  (forall now' d,
     TauxService.get_current_rate (update_monthly_rates http now ts) d
     = TauxService.get_current_rate (taux_storage now') d) /\
  date_maj (update_monthly_rates http now ts) = Some now /\
  source (update_monthly_rates http now ts)
    = Some (if decide (http = Some 200%Z) then "seloger.com" else "fallback").
Proof.
  unfold update_monthly_rates. split; [apply scraped_table|].
  split; [|split].
  - intros now' d. unfold TauxService.get_current_rate, TauxService.lookup_rate.
    now rewrite scraped_table.
  - unfold scrape_seloger_rates. destruct http as [code|]; [|reflexivity].
    now destruct (negb (code =? 200)%Z).
  - unfold scrape_seloger_rates. destruct http as [code|].
    + destruct (Z.eqb_spec code 200) as [-> | Hne]; simpl.
      * reflexivity.
      * case_decide as H; [|reflexivity]. congruence.
    + reflexivity.
Qed.

(** ** The endpoints *)

Section Endpoints.

Variable A4 : Q * Q.
Variable str_title : string -> string.

Lemma run_snoc (s : Server) (events : list Event) (e : Event) :
  run A4 str_title s (events ++ [e]) = fst (step A4 str_title (run A4 str_title s events) e).
Proof. unfold run. now rewrite fold_left_app. Qed.

Lemma run_cons (s : Server) (e : Event) (events : list Event) :
  run A4 str_title s (e :: events) = run A4 str_title (fst (step A4 str_title s e)) events.
Proof. reflexivity. Qed.

(** What one event does to an entry of the store. *)
Lemma step_store (s : Server) (e : Event) (id : string) :
  applications_store (fst (step A4 str_title s e)) !! id = applications_store s !! id \/
  (exists application rnd now r,
     e = Evaluate application rnd now /\
     evaluate_application (current_taux s) rnd application = Ok r /\
     id = application_id r /\
     applications_store (fst (step A4 str_title s e)) !! id =
       Some {| stored_application := application; stored_scoring := r;
               created_at := now; paid := false |}) \/
  (exists d, confirmed_by id e /\
     applications_store s !! id = Some d /\
     applications_store (fst (step A4 str_title s e)) !! id = Some (mark_paid d)).
Proof.
  destruct e as [http now | application rnd now | pr create
                | aid pid retrieve | aid | aid]; simpl;
    try (left; reflexivity).
  - unfold evaluate_loan_application.
    destruct (evaluate_application _ _ _) as [r|err] eqn:E; simpl;
      [|left; reflexivity].
    destruct (decide (application_id r = id)) as [<- | Hne].
    + right. left. exists application, rnd, now, r.
      repeat split; try assumption. apply lookup_insert_eq.
    + left. now apply lookup_insert_ne.
  - unfold confirm_payment.
    destruct (applications_store s !! aid) as [d|] eqn:Hd; simpl;
      [|left; reflexivity].
    destruct (retrieve pid) as [intent|err] eqn:Hr; simpl; [|left; reflexivity].
    destruct (String.eqb_spec (intent_status intent) "succeeded") as [Hs|Hs];
      simpl; [|left; reflexivity].
    destruct (decide (aid = id)) as [<- | Hne].
    + right. right. exists d. split; [|split].
      * split; [reflexivity|]. now exists intent.
      * exact Hd.
      * apply lookup_insert_eq.
    + left. now apply lookup_insert_ne.
Qed.

Lemma step_taux (s : Server) (e : Event) :
  taux (current_taux s) = Some taux_seloger ->
  taux (current_taux (fst (step A4 str_title s e))) = Some taux_seloger.
Proof.
  intros H.
  destruct e as [http now | application rnd now | pr create
                | aid pid retrieve | aid | aid]; simpl; try exact H.
  - apply scraped_table.
  - unfold evaluate_loan_application.
    now destruct (evaluate_application _ _ _).
  - unfold confirm_payment.
    destruct (applications_store s !! aid); [|exact H].
    destruct (retrieve pid) as [intent|]; [|exact H].
    now destruct (String.eqb _ _).
Qed.

Lemma run_taux (events : list Event) (s : Server) :
  taux (current_taux s) = Some taux_seloger ->
  taux (current_taux (run A4 str_title s events)) = Some taux_seloger.
Proof.
  revert s. induction events as [|e events IH]; intros s H; [exact H|].
  rewrite run_cons. apply IH. now apply step_taux.
Qed.

Lemma paid_invariant (events : list Event) :
  forall (s : Server) (history : list Event),
    (forall id d, applications_store s !! id = Some d -> paid d = true ->
                  Exists (confirmed_by id) history) ->
    forall id d,
      applications_store (run A4 str_title s events) !! id = Some d -> paid d = true ->
      Exists (confirmed_by id) (history ++ events).
Proof.
  induction events as [|e events IH]; intros s history Hinv id d Hd Hp.
  - rewrite app_nil_r. now apply (Hinv id d).
  - rewrite run_cons in Hd.
    replace (history ++ e :: events)%list with ((history ++ [e]) ++ events)%list
      by (now rewrite <- app_assoc).
    apply (IH (fst (step A4 str_title s e)) (history ++ [e])%list) with (d := d);
      [|assumption..].
    clear - Hinv. intros id d Hd Hp. apply Exists_app.
    destruct (step_store s e id)
      as [E | [(ap & rnd & now & r & _ & _ & _ & E) | (d0 & Hc & _ & _)]].
    + left. rewrite E in Hd. now apply (Hinv id d).
    + rewrite E in Hd. injection Hd as <-. discriminate Hp.
    + right. now constructor.
Qed.

End Endpoints.

Lemma rate_nonneg_of_table (ts : TauxStorage) (a : LoanApplication) :
  taux ts = Some taux_seloger -> (0 <= rate ts a)%Q.
Proof.
  intros H. unfold rate, get_current_interest_rate,
    TauxService.get_current_rate, TauxService.lookup_rate.
  rewrite H. simpl. rewrite seloger_lookup.
  repeat case_decide; simpl; lra.
Qed.

(** X12: a dossier is marked paid only by a confirmation for its own
    identifier that Stripe answered with a succeeded intent: in the store
    reached from startup by any sequence of events, every paid dossier has
    such an event behind it. *)
Theorem paid_only_after_confirmation (A4 : Q * Q)
    (str_title : string -> string) (now : string) (events : list Event)
    (id : string) (d : Dossier) :
  applications_store (run A4 str_title (startup now) events) !! id = Some d ->
  paid d = true ->
  Exists (confirmed_by id) events.
Proof.
  intros Hd Hp.
  apply (paid_invariant A4 str_title events (startup now) [])
    with (d := d); try assumption.
  intros id' d' H. simpl in H. now rewrite lookup_empty in H.
Qed.

(** X13: the confirmation does not look at what the intent was created
    for: an intent that succeeded for any amount and any application marks
    the dossier named in the request as paid, and leaves its application
    and scoring, and every other dossier, as they were. *)
Theorem any_succeeded_intent_unlocks (s : Server) (id pid : string)
    (retrieve : string -> outcome PaymentIntent) (intent : PaymentIntent)
    (d : Dossier) :
  applications_store s !! id = Some d ->
  retrieve pid = Returns intent ->
  intent_status intent = "succeeded" ->
  let '(s', reply) := confirm_payment id pid retrieve s in
  reply = Returns PaymentConfirmed /\
  applications_store s' !! id = Some (mark_paid d) /\
  (forall id', id' <> id ->
     applications_store s' !! id' = applications_store s !! id') /\
  current_taux s' = current_taux s.
Proof.
  intros Hd Hr Hs. unfold confirm_payment. rewrite Hd, Hr, Hs. simpl.
  split; [reflexivity|]. split; [apply lookup_insert_eq|].
  split; [|reflexivity].
  intros id' Hne. now apply lookup_insert_ne.
Qed.

(** X14: no dossier is ever removed, and unless a later evaluation draws
    the same identifier again its application, scoring and creation date
    never change and a payment is never revoked. *)
Theorem dossiers_persist (A4 : Q * Q) (str_title : string -> string)
    (events : list Event) (s : Server) (id : string) (d : Dossier) :
  applications_store s !! id = Some d ->
  exists d',
    applications_store (run A4 str_title s events) !! id = Some d' /\
    ((forall application rnd now,
        In (Evaluate application rnd now) events -> uuid4_str rnd <> id) ->
     stored_application d' = stored_application d /\
     stored_scoring d' = stored_scoring d /\
     created_at d' = created_at d /\
     (paid d = true -> paid d' = true)).
Proof.
  revert s d. induction events as [|e events IH]; intros s d Hd.
  - exists d. split; [exact Hd|]. now intros _.
  - rewrite run_cons.
    destruct (step_store A4 str_title s e id)
      as [E | [(ap & rnd & now & r & -> & Er & Hid & E) | (d0 & Hc & Hd0 & E)]].
    + rewrite Hd in E. destruct (IH _ _ E) as (d' & Hd' & H).
      exists d'. split; [exact Hd'|]. intros Hno. apply H.
      intros ap rnd now Hin. apply (Hno ap rnd now). now right.
    + destruct (IH _ _ E) as (d' & Hd' & H).
      exists d'. split; [exact Hd'|]. intros Hno. exfalso.
      apply (Hno ap rnd now); [now left|].
      destruct (evaluate_application_Ok _ _ _ _ Er) as (? & ? & ? & _ & _ & _ & ->).
      now rewrite Hid.
    + rewrite Hd in Hd0. injection Hd0 as <-.
      destruct (IH _ _ E) as (d' & Hd' & H).
      exists d'. split; [exact Hd'|]. intros Hno.
      destruct H as (H1 & H2 & H3 & H4).
      { intros ap rnd now Hin. apply (Hno ap rnd now). now right. }
      repeat split; try assumption. intros _. now apply H4.
Qed.

(** X15: a client never sees the 404, 402 or 400 the handlers raise: every
    error a request ends with has status 500, the original exception being
    only the cause named in its detail; so asking for an unknown dossier
    answers 500, not 404, and for an unpaid one 500, not 402. *)
Theorem every_error_is_500 (A4 : Q * Q) (str_title : string -> string)
    (s : Server) :
  (forall e x, snd (step A4 str_title s e) = Some (Raises x) ->
     exists prefix cause, x = HTTPException 500 (Caused prefix cause)) /\
  (forall id, applications_store s !! id = None ->
     snd (get_complete_dossier id s) =
       Raises (HTTPException 500
                 (Caused "Erreur récupération: "
                    (HTTPException 404 (Plain "Dossier non trouvé"))))) /\
  (forall id d, applications_store s !! id = Some d -> paid d = false ->
     snd (get_complete_dossier id s) =
       Raises (HTTPException 500
                 (Caused "Erreur récupération: "
                    (HTTPException 402 (Plain "Paiement requis"))))).
Proof.
  split; [|split].
  - intros e x.
    destruct e as [http now | application rnd now | pr create
                  | aid pid retrieve | aid | aid]; simpl.
    + discriminate.
    + unfold evaluate_loan_application.
      destruct (evaluate_application _ _ _); simpl; intros [= <-]; eauto.
    + destruct (applications_store s !! _); simpl;
        [destruct (create _ _ _); simpl|]; intros [= <-]; eauto.
    + unfold confirm_payment.
      destruct (applications_store s !! aid); simpl;
        [destruct (retrieve pid); simpl;
         [destruct (String.eqb _ _); simpl|]|]; intros [= <-]; eauto.
    + destruct (applications_store s !! aid) as [d|]; simpl;
        [destruct (paid d); simpl|]; intros [= <-]; eauto.
    + destruct (applications_store s !! aid) as [d|]; simpl;
        [destruct (paid d); simpl|]; intros [= <-]; eauto.
  - intros id H. unfold get_complete_dossier. now rewrite H.
  - intros id d H Hp. unfold get_complete_dossier. now rewrite H, Hp.
Qed.

(** X16: from evaluation to delivery: the result an evaluation returns is
    stored unpaid under its identifier, so the dossier is refused; once a
    succeeded intent is confirmed for it, the complete dossier returns
    exactly the scoring the evaluation returned. *)
Theorem evaluated_confirmed_delivered (application : LoanApplication)
    (rnd : Z) (now pid : string) (s : Server) (r : ScoringResult)
    (retrieve : string -> outcome PaymentIntent) (intent : PaymentIntent) :
  evaluate_application (current_taux s) rnd application = Ok r ->
  retrieve pid = Returns intent ->
  intent_status intent = "succeeded" ->
  let '(s1, reply1) := evaluate_loan_application application rnd now s in
  let '(s2, reply2) := confirm_payment (application_id r) pid retrieve s1 in
  reply1 = Returns (ScoringReply r) /\
  (exists cause,
     snd (get_complete_dossier (application_id r) s1)
     = Raises (HTTPException 500 cause)) /\
  reply2 = Returns PaymentConfirmed /\
  snd (get_complete_dossier (application_id r) s2)
    = Returns (CompleteDossier r).
Proof.
  intros E Hr Hs. unfold evaluate_loan_application. rewrite E.
  unfold confirm_payment. cbn [current_taux applications_store fst snd].
  rewrite lookup_insert_eq, Hr, Hs, String.eqb_refl.
  split; [reflexivity|]. split; [|split; [reflexivity|]].
  - unfold get_complete_dossier. cbn [applications_store snd].
    rewrite lookup_insert_eq. cbn. eauto.
  - unfold get_complete_dossier. cbn [applications_store snd].
    rewrite lookup_insert_eq. reflexivity.
Qed.

(** ** The layout of the PDF *)

Section Layout.

Local Open Scope Q_scope.

Lemma text_heights_app (l l' : list CanvasOp) :
  text_heights (l ++ l') = (text_heights l ++ text_heights l')%list.
Proof. unfold text_heights. apply flat_map_app. Qed.

Lemma draw_criteria_heights (str_title : string -> string)
    (items : list (string * string)) :
  forall y,
    text_heights (snd (PDFService.draw_criteria str_title y items))
      = ladder y (length items) /\
    fst (PDFService.draw_criteria str_title y items)
      = ladder_end y (length items).
Proof.
  induction items as [|[k v] rest IH]; intros y; simpl; [now split|].
  destruct (IH (y - 15)) as [H1 H2].
  destruct (PDFService.draw_criteria str_title (y - 15) rest) as [y' ops].
  simpl in *. now rewrite H1, H2.
Qed.

Lemma draw_recommendations_heights (recs : list string) :
  forall y i,
    text_heights (snd (PDFService.draw_recommendations y i recs))
      = ladder y (length recs).
Proof.
  induction recs as [|x rest IH]; intros y i; simpl; [reflexivity|].
  pose proof (IH (y - 15) (i + 1)%Z) as H.
  destruct (PDFService.draw_recommendations (y - 15) (i + 1) rest) as [y' ops].
  simpl in *. now rewrite H.
Qed.

Lemma ladder_length (y : Q) (n : nat) : length (ladder y n) = n.
Proof. revert y. induction n as [|n IH]; intros y; simpl; [|rewrite IH]; reflexivity. Qed.

Lemma ladder_end_value (n : nat) :
  forall y, ladder_end y n == y - 15 * inject_Z (Z.of_nat n).
Proof.
  induction n as [|n IH]; intros y.
  - simpl. change (inject_Z 0) with 0. ring.
  - simpl ladder_end. rewrite IH, Nat2Z.inj_succ. unfold Z.succ.
    rewrite inject_Z_plus. change (inject_Z 1) with 1. ring.
Qed.

Lemma ladder_descending (n : nat) : forall y, descending y (ladder y n).
Proof.
  induction n as [|n IH]; intros y; simpl; [exact I|].
  split; [lra | apply IH].
Qed.

Lemma ladder_above_end (n : nat) :
  forall y, Forall (fun v => ladder_end y n <= v) (ladder y n).
Proof.
  induction n as [|n IH]; intros y; simpl; constructor; [|apply IH].
  rewrite ladder_end_value.
  assert (0 <= inject_Z (Z.of_nat n)).
  { change 0 with (inject_Z 0). rewrite <- Zle_Qle. lia. }
  lra.
Qed.

Lemma descending_app (l l' : list Q) :
  forall top,
    descending top l -> descending (default top (last l)) l' ->
    descending top (l ++ l').
Proof.
  induction l as [|y l IH]; intros top H H'; [exact H'|].
  destruct H as [Hy Hl]. split; [exact Hy|].
  apply IH; [exact Hl|]. destruct l as [|q l]; [exact H'|].
  rewrite last_cons_cons in H'.
  destruct (last (q :: l)) as [z|] eqn:E; [exact H'|].
  apply last_None in E. discriminate E.
Qed.

Lemma ladder_last (n : nat) :
  forall y, last (ladder y (S n)) = Some (ladder_end y (S n)).
Proof.
  induction n as [|n IH]; intros y; [reflexivity|].
  change (ladder y (S (S n))) with ((y - 15) :: ladder (y - 15) (S n)).
  change (ladder_end y (S (S n))) with (ladder_end (y - 15) (S n)).
  rewrite <- IH. reflexivity.
Qed.

(** The heights of the lines of a dossier, as the function lays them
    out. *)
Lemma dossier_heights (w h : Q) (str_title : string -> string)
    (application : LoanApplication) (r : ScoringResult) :
  let y9 := h - 80 - 15 - 40 - 40 - 20 - 15 - 15 - 30 in
  let n := length (criteria_details r) in
  let m := length (recommendations r) in
  text_heights
    (PDFService.generate_loan_dossier (w, h) str_title application r)
  = ([h - 50; h - 80; h - 80 - 15; h - 80 - 15 - 40; h - 80 - 15 - 40 - 40;
      h - 80 - 15 - 40 - 40 - 20; h - 80 - 15 - 40 - 40 - 20 - 15;
      h - 80 - 15 - 40 - 40 - 20 - 15 - 15; y9]
     ++ ladder (y9 - 20) n
     ++ match m with
        | O => []
        | S _ =>
            (ladder_end (y9 - 20) n - 30)
            :: ladder (ladder_end (y9 - 20) n - 30 - 20) m
        end)%list.
Proof.
  cbv zeta. unfold PDFService.generate_loan_dossier.
  destruct (draw_criteria_heights str_title (criteria_details r)
              (h - 80 - 15 - 40 - 40 - 20 - 15 - 15 - 30 - 20)) as [H1 H2].
  destruct (PDFService.draw_criteria str_title _ (criteria_details r))
    as [y ops].
  simpl in H1, H2. subst y.
  destruct (recommendations r) as [|x l] eqn:Hrec.
  - rewrite !text_heights_app, H1. reflexivity.
  - pose proof (draw_recommendations_heights (x :: l)
                  (ladder_end (h - 80 - 15 - 40 - 40 - 20 - 15 - 15 - 30 - 20)
                     (length (criteria_details r)) - 30 - 20) 1%Z) as H3.
    destruct (PDFService.draw_recommendations _ 1 (x :: l)) as [y' lines].
    simpl in H3. rewrite !text_heights_app, H1, H3. reflexivity.
Qed.

(** Every line is at most [page_depth] below the top of the page. *)
Lemma dossier_heights_bounded (w h : Q) (str_title : string -> string)
    (application : LoanApplication) (r : ScoringResult) :
  Forall (fun y => h - page_depth (length (criteria_details r))
                         (length (recommendations r)) <= y)
    (text_heights
       (PDFService.generate_loan_dossier (w, h) str_title application r)).
Proof.
  rewrite dossier_heights. cbv zeta.
  set (n := length (criteria_details r)).
  set (m := length (recommendations r)).
  set (y9 := h - 80 - 15 - 40 - 40 - 20 - 15 - 15 - 30).
  assert (Hn : 0 <= inject_Z (Z.of_nat n)).
  { change 0 with (inject_Z 0). rewrite <- Zle_Qle. lia. }
  assert (Hm : 0 <= inject_Z (Z.of_nat m)).
  { change 0 with (inject_Z 0). rewrite <- Zle_Qle. lia. }
  pose proof (ladder_end_value n (y9 - 20)) as He.
  apply Forall_app. split; [|apply Forall_app; split].
  - assert (Hrec : 0 <= match m with
                        | O => 0
                        | S _ => 50 + 15 * inject_Z (Z.of_nat m)
                        end) by (destruct m; lra).
    unfold page_depth.
    generalize dependent (match m with
                          | O => 0
                          | S _ => 50 + 15 * inject_Z (Z.of_nat m)
                          end).
    intros q Hq. subst y9. repeat constructor; lra.
  - assert (Hrec : 0 <= match m with
                        | O => 0
                        | S _ => 50 + 15 * inject_Z (Z.of_nat m)
                        end) by (destruct m; lra).
    unfold page_depth.
    generalize dependent (match m with
                          | O => 0
                          | S _ => 50 + 15 * inject_Z (Z.of_nat m)
                          end).
    intros q Hq.
    eapply Forall_impl; [apply ladder_above_end|].
    intros v Hv. cbv beta in Hv. subst y9. lra.
  - destruct m as [|m']; [constructor|].
    unfold page_depth.
    set (k := inject_Z (Z.of_nat (S m'))) in *.
    constructor; [subst y9; lra|].
    eapply Forall_impl; [apply ladder_above_end|].
    intros v Hv. cbv beta in Hv.
    rewrite ladder_end_value in Hv. fold k in Hv. subst y9. lra.
Qed.

End Layout.

(** X18: the lines of a dossier go down the page: there are nine fixed
    lines, one per criterion and, when there is any recommendation, a title
    and one line per recommendation; each is strictly below the one before
    and none is more than [page_depth] below the top, which the last line
    reaches as soon as there is a criterion or a recommendation: nothing
    starts a new page, however long the lists are. *)
Theorem pdf_lines_descend (w h : Q) (str_title : string -> string)
    (application : LoanApplication) (r : ScoringResult) :
  let heights :=
    text_heights
      (PDFService.generate_loan_dossier (w, h) str_title application r) in
  let n := length (criteria_details r) in
  let m := length (recommendations r) in
  length heights = (9 + n + match m with O => 0 | S _ => S m end)%nat /\
  descending h heights /\
  Forall (fun y => (h - page_depth n m <= y)%Q) heights /\
  ((n + m)%nat <> O ->
   exists y, last heights = Some y /\ (y == h - page_depth n m)%Q).
Proof.
  cbv zeta.
  split; [|split; [|split; [apply dossier_heights_bounded|]]];
    rewrite dossier_heights; cbv zeta;
    set (n := length (criteria_details r));
    set (m := length (recommendations r));
    set (y9 := (h - 80 - 15 - 40 - 40 - 20 - 15 - 15 - 30)%Q);
    assert (Hn := ladder_end_value n (y9 - 20)%Q).
  - rewrite !length_app, ladder_length. simpl length.
    destruct m; simpl; [|rewrite ladder_length]; lia.
  - apply descending_app; [subst y9; simpl; repeat split; lra|].
    change (descending y9
              (ladder (y9 - 20) n
               ++ match m with
                  | O => []
                  | S _ =>
                      (ladder_end (y9 - 20) n - 30)%Q
                      :: ladder (ladder_end (y9 - 20) n - 30 - 20) m
                  end)).
    assert (Hl : descending y9 (ladder (y9 - 20) n)).
    { destruct n; simpl; [exact I|]. split; [lra | apply ladder_descending]. }
    apply descending_app; [exact Hl|].
    destruct m as [|m']; [exact I|].
    assert (He : (ladder_end (y9 - 20) n
                  <= default y9 (last (ladder (y9 - 20) n)))%Q).
    { destruct n as [|n']; [simpl; lra|]. rewrite ladder_last. simpl. lra. }
    split; [lra|].
    pose proof (ladder_descending (S m') (ladder_end (y9 - 20) n - 30 - 20)%Q)
      as Hd.
    simpl in Hd |- *. destruct Hd as [Hd1 Hd2]. split; [lra | exact Hd2].
  - intros Hnm. unfold page_depth. rewrite !last_app.
    destruct m as [|m'].
    + destruct n as [|n']; [now destruct Hnm|].
      rewrite ladder_last. eexists. split; [reflexivity|].
      rewrite Hn. generalize (inject_Z (Z.of_nat (S n'))).
      intros k. subst y9. ring.
    + change (last ((ladder_end (y9 - 20) n - 30)%Q
                    :: ladder (ladder_end (y9 - 20) n - 30 - 20) (S m')))
        with (last (ladder (ladder_end (y9 - 20) n - 30 - 20) (S m'))).
      rewrite ladder_last. eexists. split; [reflexivity|].
      rewrite ladder_end_value, Hn.
      generalize (inject_Z (Z.of_nat (S m'))) (inject_Z (Z.of_nat n)).
      intros k k'. subst y9. ring.
Qed.

(** X19: the dossier of a result of [evaluate_application] fits on one
    page: a result has five criteria and at most five recommendations, so
    on a page more than 475 points high, such as A4, every line is drawn
    above the bottom edge. *)
Theorem engine_dossier_fits_page (ts : TauxStorage) (a a' : LoanApplication)
    (rnd : Z) (r : ScoringResult) (w h : Q) (str_title : string -> string) :
  evaluate_application ts rnd a = Ok r ->
  (475 < h)%Q ->
  Forall (fun y => (0 < y)%Q)
    (text_heights
       (PDFService.generate_loan_dossier (w, h) str_title a' r)).
Proof.
  intros E Hh.
  destruct (evaluate_application_Ok ts a rnd r E) as (mp & cc & d & _ & _ & _ & ->).
  pose proof (criteria_keys ts a rnd mp cc d) as Hk.
  pose proof (recommendations_count ts a rnd mp cc d) as Hc.
  apply (f_equal (@length string)) in Hk. rewrite length_map in Hk.
  change (length ["apport"; "revenus"; "endettement"; "reste_vivre"; "age"])
    with 5%nat in Hk.
  set (r := scoring ts a rnd mp cc d) in *.
  set (m := length (recommendations r)) in *.
  assert (Hm : (m <= 5)%nat).
  { assert (Hp : forall b, (0 <= points 1 b)%Z) by (now intros []).
    pose proof (Hp (criterion_passed "apport" r)).
    pose proof (Hp (criterion_passed "revenus" r)).
    pose proof (Hp (criterion_passed "endettement" r)).
    pose proof (Hp (criterion_passed "reste_vivre" r)).
    pose proof (Hp (criterion_passed "age" r)).
    lia. }
  eapply Forall_impl; [apply dossier_heights_bounded|].
  intros y Hy. cbv beta in Hy. fold m in Hy. rewrite Hk in Hy.
  assert (Hd : (page_depth 5 m <= 475)%Q).
  { unfold page_depth.
    assert (H5 : (inject_Z (Z.of_nat m) <= 5)%Q).
    { change 5%Q with (inject_Z 5). rewrite <- Zle_Qle. lia. }
    change (inject_Z (Z.of_nat 5)) with 5%Q.
    destruct m; lra. }
  lra.
Qed.

(** ** The further theorems at sample inputs *)

Section CaseFacts.

Local Open Scope Q_scope.

Lemma exemple_evaluated (ts : TauxStorage) (rnd : Z) :
  taux ts = Some taux_seloger ->
  exists mp cc d,
    evaluate_application ts rnd Samples.exemple
    = Ok (scoring ts Samples.exemple rnd mp cc d).
Proof.
  intros Ht.
  destruct (evaluate_application_total ts Samples.exemple rnd
              validated_exemple numeric_exemple (rate_nonneg_of_table _ _ Ht))
    as (mp & cc & d & k & _ & _ & _ & E & _).
  now exists mp, cc, d.
Qed.

End CaseFacts.

(** The permanent borrower of the samples. *)
Lemma eligible_income_bounds_salarie :
  valid_employment (employment (Samples.salarie cdi 3000 5 false)) /\
  (0 <= calculate_eligible_income
          (employment (Samples.salarie cdi 3000 5 false))
     <= net_monthly_income (employment (Samples.salarie cdi 3000 5 false)))%Q.
Proof.
  assert (H : valid_employment (employment (Samples.salarie cdi 3000 5 false)))
    by (split; simpl; [reflexivity | discriminate]).
  split; [exact H|].
  exact (eligible_income_bounds _ H).
Defined.

(** The verdicts of the example of the specification. *)
Lemma verdicts_and_recommendations_exemple :
  exists r,
    evaluate_application Instances.ts 0 Samples.exemple = Ok r /\
    map fst (criteria_details r)
      = ["apport"; "revenus"; "endettement"; "reste_vivre"; "age"] /\
    Z.of_nat (length (recommendations r)) =
      (5 - (points 1 (criterion_passed "apport" r)
            + points 1 (criterion_passed "revenus" r)
            + points 1 (criterion_passed "endettement" r)
            + points 1 (criterion_passed "reste_vivre" r)
            + points 1 (criterion_passed "age" r)))%Z /\
    (feasibility_score r = 100%Z <-> recommendations r = []).
Proof.
  destruct (exemple_evaluated Instances.ts 0 eq_refl) as (mp & cc & d & E).
  eexists. split; [exact E|].
  exact (verdicts_and_recommendations _ _ _ _ E).
Defined.

(** The status of the example of the specification. *)
Lemma favorable_needs_both_main_criteria_exemple :
  exists r,
    evaluate_application Instances.ts 0 Samples.exemple = Ok r /\
    (scoring_status r = favorable <->
       criterion_passed "apport" r = true /\
       criterion_passed "endettement" r = true /\
       (criterion_passed "revenus" r = true \/
        criterion_passed "reste_vivre" r = true /\
        criterion_passed "age" r = true)) /\
    (criterion_passed "apport" r = false ->
     criterion_passed "endettement" r = false ->
     scoring_status r = difficile).
Proof.
  destruct (exemple_evaluated Instances.ts 0 eq_refl) as (mp & cc & d & E).
  eexists. split; [exact E|].
  exact (favorable_needs_both_main_criteria _ _ _ _ E).
Defined.

(** The example of the specification, alone and with a co-borrower in
    trial period. *)
Lemma idle_co_borrower_never_helps_exemple :
  calculate_eligible_income (employment Cases.co_emprunteur) = 0%Q /\
  exists r r',
    evaluate_application Instances.ts 0 Samples.exemple = Ok r /\
    evaluate_application Instances.ts 1 Cases.exemple_a_deux = Ok r' /\
    monthly_payment r' = monthly_payment r /\
    (feasibility_score r' <= feasibility_score r)%Z.
Proof.
  split; [reflexivity|].
  destruct (exemple_evaluated Instances.ts 0 eq_refl) as (mp & cc & d & E).
  destruct (idle_co_borrower_never_helps Instances.ts Samples.exemple
              Cases.exemple_a_deux Cases.co_emprunteur 0 1 _
              eq_refl eq_refl eq_refl eq_refl eq_refl eq_refl eq_refl eq_refl
              ltac:(simpl; lia) E) as (r' & E' & H).
  eexists _, r'. split; [exact E|]. split; [exact E'|]. exact H.
Defined.

(** The table of the source at 21 years and at 25 years. *)
Lemma seloger_rate_by_duration_21 :
  TauxService.get_current_rate Instances.ts 21 = 35 # 1000 /\
  (285 # 10000 <= TauxService.get_current_rate Instances.ts 25 < 35 # 1000)%Q.
Proof.
  split.
  - apply (seloger_rate_by_duration Instances.ts 21 eq_refl).
    simpl. intros H. repeat destruct H as [H|H]; try discriminate H. exact H.
  - apply (seloger_rate_by_duration Instances.ts 25 eq_refl).
    simpl. tauto.
Defined.

Lemma parcours_store :
  exists d,
    applications_store
      (run Cases.A4 Cases.str_title (startup Samples.now) Cases.parcours)
      !! uuid4_str 0 = Some d /\
    paid d = true.
Proof.
  unfold run, Cases.parcours. cbn [fold_left].
  set (s1 := fst (step Cases.A4 Cases.str_title (startup Samples.now)
                    (UpdateRates None Samples.now))).
  assert (Ht : taux (current_taux s1) = Some taux_seloger) by reflexivity.
  destruct (exemple_evaluated (current_taux s1) 0 Ht) as (mp & cc & d & E).
  unfold step at 2. unfold evaluate_loan_application. rewrite E.
  cbn [fst]. unfold step, confirm_payment. cbn [applications_store].
  change (application_id (scoring (current_taux s1) Samples.exemple 0 mp cc d))
    with (uuid4_str 0).
  rewrite lookup_insert_eq.
  change (Cases.stripe_retrieve "pi_1") with (Returns Cases.intent_autre).
  cbv beta iota.
  change (intent_status Cases.intent_autre) with "succeeded".
  rewrite String.eqb_refl. cbv beta iota. cbn [fst applications_store].
  rewrite lookup_insert_eq. eexists. split; reflexivity.
Qed.

(** The example of the specification, evaluated and then confirmed. *)
Lemma paid_only_after_confirmation_parcours :
  exists d,
    applications_store
      (run Cases.A4 Cases.str_title (startup Samples.now) Cases.parcours)
      !! uuid4_str 0 = Some d /\
    paid d = true /\
    Exists (confirmed_by (uuid4_str 0)) Cases.parcours.
Proof.
  destruct parcours_store as (d & Hd & Hp).
  exists d. split; [exact Hd|]. split; [exact Hp|].
  exact (paid_only_after_confirmation Cases.A4 Cases.str_title Samples.now
           Cases.parcours (uuid4_str 0) d Hd Hp).
Defined.

(** A stored dossier unlocked with an intent made for another one. *)
Lemma any_succeeded_intent_unlocks_autre :
  intent_application_id Cases.intent_autre <> "abc" /\
  let '(s', reply) :=
    confirm_payment "abc" "pi_9" Cases.stripe_retrieve Cases.serveur in
  reply = Returns PaymentConfirmed /\
  applications_store s' !! "abc" = Some (mark_paid Cases.dossier_stocke) /\
  (forall id', id' <> "abc" ->
     applications_store s' !! id' = applications_store Cases.serveur !! id') /\
  current_taux s' = current_taux Cases.serveur.
Proof.
  split; [discriminate|].
  exact (any_succeeded_intent_unlocks Cases.serveur "abc" "pi_9"
           Cases.stripe_retrieve Cases.intent_autre Cases.dossier_stocke
           (lookup_singleton_eq _ _) eq_refl eq_refl).
Defined.

(** A stored dossier after a request, a failed refresh and an evaluation. *)
Lemma dossiers_persist_serveur :
  exists d',
    applications_store
      (run Cases.A4 Cases.str_title Cases.serveur
         [GetDossier "abc"; UpdateRates (Some 500%Z) Samples.now;
          Evaluate Samples.exemple 0 Samples.now])
      !! "abc" = Some d' /\
    ((forall application rnd now,
        In (Evaluate application rnd now)
          [GetDossier "abc"; UpdateRates (Some 500%Z) Samples.now;
           Evaluate Samples.exemple 0 Samples.now] ->
        uuid4_str rnd <> "abc") ->
     stored_application d' = stored_application Cases.dossier_stocke /\
     stored_scoring d' = stored_scoring Cases.dossier_stocke /\
     created_at d' = created_at Cases.dossier_stocke /\
     (paid Cases.dossier_stocke = true -> paid d' = true)).
Proof.
  exact (dossiers_persist Cases.A4 Cases.str_title _ Cases.serveur "abc"
           Cases.dossier_stocke (lookup_singleton_eq _ _)).
Defined.

(** The example of the specification from evaluation to delivery. *)
Lemma evaluated_confirmed_delivered_exemple :
  exists r,
    evaluate_application (current_taux Cases.serveur) 0 Samples.exemple = Ok r /\
    let '(s1, reply1) :=
      evaluate_loan_application Samples.exemple 0 Samples.now Cases.serveur in
    let '(s2, reply2) :=
      confirm_payment (application_id r) "pi_1" Cases.stripe_retrieve s1 in
    reply1 = Returns (ScoringReply r) /\
    (exists cause,
       snd (get_complete_dossier (application_id r) s1)
       = Raises (HTTPException 500 cause)) /\
    reply2 = Returns PaymentConfirmed /\
    snd (get_complete_dossier (application_id r) s2)
      = Returns (CompleteDossier r).
Proof.
  destruct (exemple_evaluated (current_taux Cases.serveur) 0 eq_refl)
    as (mp & cc & d & E).
  eexists. split; [exact E|].
  exact (evaluated_confirmed_delivered Samples.exemple 0 Samples.now "pi_1"
           Cases.serveur _ Cases.stripe_retrieve Cases.intent_autre
           E eq_refl eq_refl).
Defined.

(** The dossier of the example of the specification on an A4 page. *)
Lemma engine_dossier_fits_page_exemple :
  (475 < snd Cases.A4)%Q /\
  exists r,
    evaluate_application Instances.ts 0 Samples.exemple = Ok r /\
    Forall (fun y => (0 < y)%Q)
      (text_heights
         (PDFService.generate_loan_dossier Cases.A4 Cases.str_title
            Samples.exemple r)).
Proof.
  assert (H : (475 < snd Cases.A4)%Q) by reflexivity.
  split; [exact H|].
  destruct (exemple_evaluated Instances.ts 0 eq_refl) as (mp & cc & d & E).
  eexists. split; [exact E|].
  exact (engine_dossier_fits_page Instances.ts Samples.exemple Samples.exemple
           0 _ (fst Cases.A4) (snd Cases.A4) Cases.str_title E H).
Defined.

(** ** Double precision: numbers *)

Section DoubleNumbers.

Import Doubles.

Local Open Scope float_scope.

#[local] Set Warnings "-inexact-float".

Lemma zero_not_positive (x : float) : (x =? 0) = true -> (0 <? x) = false.
Proof.
  rewrite FloatAxioms.eqb_spec, FloatAxioms.ltb_spec.
  change (Prim2SF 0) with (S754_zero false).
  destruct (Prim2SF x) as [s|s| |s m e]; try discriminate; try reflexivity;
    destruct s; discriminate.
Qed.

Lemma positive_not_zero (x : float) : (0 <? x) = true -> (x =? 0) = false.
Proof.
  intros H. destruct (x =? 0) eqn:E; [|reflexivity].
  apply zero_not_positive in E. congruence.
Qed.

Lemma float_of_int_0 : float_of_int 0 = Ok 0.
Proof. vm_compute. reflexivity. Qed.

Lemma float_of_int_1 : float_of_int 1 = Ok 1.
Proof. vm_compute. reflexivity. Qed.

Lemma float_of_int_Ok (n : Z) :
  (Z.abs n < 2 ^ 1024 - 2 ^ 970)%Z -> exists x, float_of_int n = Ok x.
Proof.
  intros H. unfold float_of_int. apply Z.ltb_lt in H. rewrite H. eauto.
Qed.


Lemma small_int_converts (n : Z) :
  (0 <= n <= 16500)%Z -> exists x, float_of_int n = Ok x.
Proof.
  intros H. apply float_of_int_Ok.
  apply Z.le_lt_trans with 16500%Z; [lia|]. vm_compute. reflexivity.
Qed.

Lemma add_int_float (n : Z) (y : float) :
  add (PInt n) (PFloat y) = (x ← float_of_int n; Ok (PFloat (x + y))).
Proof. reflexivity. Qed.

Lemma add_float_int (x : float) (n : Z) :
  add (PFloat x) (PInt n) = (y ← float_of_int n; Ok (PFloat (x + y))).
Proof. reflexivity. Qed.

Lemma add_zero_float (y : float) : add (PInt 0) (PFloat y) = Ok (PFloat (0 + y)).
Proof. rewrite add_int_float, float_of_int_0. reflexivity. Qed.

End DoubleNumbers.

(** ** Double precision: eligible income *)

Section DoubleIncome.

Import Doubles.

Local Open Scope float_scope.

#[local] Set Warnings "-inexact-float".

(** C1, as the code has it: a permanent contract counts the net income
    itself, or the int 0 during a trial period; a fixed-term contract counts
    the double nearest to the net income times the double 0.7 from three
    years of experience on, and the int 0 below, whatever the income. *)
Theorem eligible_income_by_contract (e : EmploymentInfo) :
  (status e = cdi -> trial_period e = false ->
     calculate_eligible_income e = PFloat (net_monthly_income e)) /\
  (status e = cdi -> trial_period e = true ->
     calculate_eligible_income e = PInt 0) /\
  (status e = cdd -> (3 <=? years_experience e) = true ->
     calculate_eligible_income e = PFloat (net_monthly_income e * 0.7)) /\
  (status e = cdd -> (3 <=? years_experience e) = false ->
     calculate_eligible_income e = PInt 0).
Proof.
  unfold calculate_eligible_income.
  repeat split; intros Hs Hx; rewrite Hs, Hx; reflexivity.
Qed.

(** C1, the counterexample: with a net income of 2600 and three years of
    experience a fixed-term contract counts 1819.9999999999998, which is
    less than the 1820 that 70% of 2600 are. *)
Lemma cdd_2600_is_not_1820 :
  status cdd_2600 = cdd /\
  (3 <=? years_experience cdd_2600) = true /\
  exists x q net,
    calculate_eligible_income cdd_2600 = PFloat x /\
    (x =? 1820) = false /\
    exact x = Some q /\
    exact (net_monthly_income cdd_2600) = Some net /\
    (net == 2600)%Q /\
    (q < (7 # 10) * net)%Q.
Proof.
  split; [reflexivity|]. split; [reflexivity|].
  eexists _, _, _.
  split; [vm_compute; reflexivity|].
  split; [vm_compute; reflexivity|].
  split; [vm_compute; reflexivity|].
  split; [vm_compute; reflexivity|].
  split; vm_compute; reflexivity.
Qed.

End DoubleIncome.

(** ** Double precision: current charges *)

Section DoubleCharges.

Import Doubles.

Local Open Scope float_scope.

#[local] Set Warnings "-inexact-float".

Lemma add_consumer_loans_declared (loans : list (gmap string JsonValue)) :
  forall c, add_consumer_loans c loans = sum_from c (declared loans).
Proof.
  induction loans as [|loan rest IH]; intros c; simpl; [reflexivity|].
  destruct (add_value c _) as [c'|err]; simpl; [apply IH | reflexivity].
Qed.

Lemma sum_from_integers (values : list JsonValue) :
  Forall is_integer values ->
  forall n, sum_from (PInt n) values = Ok (PInt (n + integer_sum values)).
Proof.
  induction 1 as [|v rest [k Hv] _ IH]; intros n; simpl.
  - now rewrite Z.add_0_r.
  - destruct v as [|b|m|x|s|]; try discriminate Hv; simpl in *;
      rewrite IH; do 2 f_equal; lia.
Qed.


Lemma sum_from_cons (c : PyNumber) (v : JsonValue) (rest : list JsonValue) :
  sum_from c (v :: rest) = (s ← add_value c v; sum_from s rest).
Proof. reflexivity. Qed.





End DoubleCharges.

(** ** Double precision: the evaluation *)

Section DoubleCriteria.

Import Doubles.

Local Open Scope float_scope.

#[local] Set Warnings "-inexact-float".

Lemma apport_judged (c m : float) (t : Tally) :
  exists x,
    judged "apport" 30 (m <=? c) ("Augmentez votre apport à " +:+ x) t
      (critere_apport c m t).
Proof.
  exists (format_0f m +:+ "€ minimum").
  unfold judged, critere_apport.
  destruct (m <=? c); eexists; repeat split; simpl;
    rewrite ?app_nil_r, ?Z.add_0_r; reflexivity.
Qed.

Lemma revenus_judged (main : PyNumber) (ti : float) (t : Tally) :
  judged "revenus" 20 (gt_zero main)
    "Obtenez un CDI ou justifiez 3 ans d'ancienneté en CDD" t
    (critere_revenus main ti t).
Proof.
  unfold judged, critere_revenus.
  destruct (gt_zero main); eexists; repeat split; simpl;
    rewrite ?app_nil_r, ?Z.add_0_r; reflexivity.
Qed.

Lemma endettement_judged (d : PyNumber) (t t' : Tally) :
  critere_endettement d t = Ok t' ->
  judged "endettement" 30 (le_float d 0.33)
    "Réduisez vos charges ou augmentez vos revenus" t t'.
Proof.
  unfold judged, critere_endettement.
  destruct (le_float d 0.33);
    destruct (format_number format_1pct d) as [shown|]; try discriminate;
    intros [= <-]; eexists; repeat split; simpl;
    rewrite ?app_nil_r, ?Z.add_0_r; reflexivity.
Qed.

Lemma reste_vivre_judged (x : float) (n : Z) (t t' : Tally) :
  critere_reste_vivre x n t = Ok t' ->
  exists shown,
    judged "reste_vivre" 10 (ge_int x n) ("Assurez-vous d'avoir " +:+ shown)
      t t'.
Proof.
  unfold judged, critere_reste_vivre.
  destruct (ge_int x n).
  - intros [= <-]. exists "". eexists; repeat split; simpl;
      rewrite ?app_nil_r, ?Z.add_0_r; reflexivity.
  - destruct (format_number format_0f (PInt n)) as [shown|]; [|discriminate].
    intros [= <-]. exists (shown +:+ "€ de reste à vivre").
    eexists; repeat split; simpl; rewrite ?Z.add_0_r; reflexivity.
Qed.

Lemma age_judged (n : Z) (t : Tally) :
  judged "age" 10 (n <=? 64)%Z "Réduisez la durée du prêt" t (critere_age n t).
Proof.
  unfold judged, critere_age.
  destruct (n <=? 64)%Z; eexists; repeat split; simpl;
    rewrite ?app_nil_r, ?Z.add_0_r; reflexivity.
Qed.

Lemma endettement_returns (d : PyNumber) (t : Tally) :
  (exists x, as_float d = Ok x) -> exists t', critere_endettement d t = Ok t'.
Proof.
  intros [x Hx]. unfold critere_endettement, format_number. rewrite Hx.
  destruct (le_float d 0.33); simpl; eauto.
Qed.

Lemma reste_vivre_returns (x : float) (n : Z) (t : Tally) :
  (0 <= n <= 16500)%Z -> exists t', critere_reste_vivre x n t = Ok t'.
Proof.
  intros Hn. destruct (small_int_converts n Hn) as [y Hy].
  unfold critere_reste_vivre, format_number, as_float. rewrite Hy.
  destruct (ge_int x n); simpl; eauto.
Qed.

Lemma debt_ratio_of_returns (tc ti : float) :
  exists d, debt_ratio_of tc ti = Ok d /\ exists x, as_float d = Ok x.
Proof.
  unfold debt_ratio_of, truediv.
  destruct (0 <? ti) eqn:E.
  - rewrite (positive_not_zero _ E). simpl. eauto.
  - exists (PInt 1). split; [reflexivity|]. exists 1. apply float_of_int_1.
Qed.

Lemma debt_ratio_of_positive (tc ti : float) (d : PyNumber) :
  (0 <? ti) = true -> debt_ratio_of tc ti = Ok d -> d = PFloat (tc / ti).
Proof.
  intros E. unfold debt_ratio_of, truediv.
  rewrite E, (positive_not_zero _ E). simpl. congruence.
Qed.

Lemma debt_ratio_of_otherwise (tc ti : float) (d : PyNumber) :
  (0 <? ti) = false -> debt_ratio_of tc ti = Ok d -> d = PInt 1.
Proof. intros E. unfold debt_ratio_of. rewrite E. congruence. Qed.

Lemma one_above_threshold : le_float (PInt 1) 0.33 = false.
Proof. vm_compute. reflexivity. Qed.

End DoubleCriteria.

Section DoubleEvaluation.

Import Doubles.

Local Open Scope float_scope.

#[local] Set Warnings "-inexact-float".

Variable float_pow : float -> Z -> result float.
Variable ts : TauxStorage.
Variable a : LoanApplication.

Lemma evaluation_steps (rnd : Z) :
  evaluate_application float_pow ts rnd a =
    (ti ← income a;
     mp ← payment float_pow ts a;
     cc ← charges a;
     c ← as_float cc;
     d ← debt_ratio_of (mp + c) ti;
     t ← critere_endettement d (tally2 a ti);
     t ← critere_reste_vivre (ti - (mp + c)) (min_remaining a) t;
     Ok (result_of ts a rnd mp t)).
Proof. reflexivity. Qed.

(** What a returned result holds. *)
Lemma evaluation_returned (rnd : Z) (r : ScoringResult) :
  evaluate_application float_pow ts rnd a = Ok r ->
  exists ti cc c d v1 v2 v3 v4 v5 x1 x4,
    income a = Ok ti /\
    payment float_pow ts a = Ok (monthly_payment r) /\
    charges a = Ok cc /\ as_float cc = Ok c /\
    debt_ratio_of (monthly_payment r + c) ti = Ok d /\
    let b1 := budget a * 0.10 <=? personal_contribution (project a) in
    let b2 :=
      gt_zero (calculate_eligible_income
                 (employment (main_borrower (household a)))) in
    let b3 := le_float d 0.33 in
    let b4 := ge_int (ti - (monthly_payment r + c)) (min_remaining a) in
    let b5 :=
      (age (main_borrower (household a)) + loan_duration (project a)
       <=? 64)%Z in
    criteria_details r =
      [("apport", v1); ("revenus", v2); ("endettement", v3);
       ("reste_vivre", v4); ("age", v5)] /\
    String.prefix "✅" v1 = b1 /\ String.prefix "✅" v2 = b2 /\
    String.prefix "✅" v3 = b3 /\ String.prefix "✅" v4 = b4 /\
    String.prefix "✅" v5 = b5 /\
    feasibility_score r =
      (points 30 b1 + points 20 b2 + points 30 b3 + points 10 b4
       + points 10 b5)%Z /\
    recommendations r =
      ((if b1 then [] else ["Augmentez votre apport à " +:+ x1])
       ++ (if b2
           then []
           else ["Obtenez un CDI ou justifiez 3 ans d'ancienneté en CDD"])
       ++ (if b3
           then []
           else ["Réduisez vos charges ou augmentez vos revenus"])
       ++ (if b4 then [] else ["Assurez-vous d'avoir " +:+ x4])
       ++ (if b5 then [] else ["Réduisez la durée du prêt"]))%list /\
    total_budget r = budget a /\
    scoring_status r = final_status (feasibility_score r).
Proof.
  rewrite evaluation_steps. unfold mbind, result_bind.
  destruct (income a) as [ti|] eqn:Hti; [|discriminate].
  destruct (payment float_pow ts a) as [mp|] eqn:Hmp; [|discriminate].
  destruct (charges a) as [cc|] eqn:Hcc; [|discriminate].
  destruct (as_float cc) as [c|] eqn:Hc; [|discriminate].
  destruct (debt_ratio_of (mp + c) ti) as [d|] eqn:Hd; [|discriminate].
  destruct (critere_endettement d (tally2 a ti)) as [t3|] eqn:H3;
    [|discriminate].
  destruct (critere_reste_vivre (ti - (mp + c)) (min_remaining a) t3)
    as [t4|] eqn:H4; [|discriminate].
  intros [= <-].
  destruct (apport_judged (personal_contribution (project a))
              (budget a * 0.10) {| criteria := []; score := 0; recs := [] |})
    as (x1 & v1 & P1 & C1 & S1 & R1).
  destruct (revenus_judged
              (calculate_eligible_income
                 (employment (main_borrower (household a)))) ti
              (critere_apport (personal_contribution (project a))
                 (budget a * 0.10)
                 {| criteria := []; score := 0; recs := [] |}))
    as (v2 & P2 & C2 & S2 & R2).
  fold (tally2 a ti) in C2, S2, R2.
  destruct (endettement_judged _ _ _ H3) as (v3 & P3 & C3 & S3 & R3).
  destruct (reste_vivre_judged _ _ _ _ H4) as (x4 & v4 & P4 & C4 & S4 & R4).
  destruct (age_judged
              (age (main_borrower (household a)) + loan_duration (project a))
              t4) as (v5 & P5 & C5 & S5 & R5).
  exists ti, cc, c, d, v1, v2, v3, v4, v5, x1, x4.
  unfold result_of. cbn [monthly_payment criteria_details feasibility_score
                         recommendations total_budget scoring_status].
  repeat (split; [first [assumption | reflexivity]|]).
  rewrite C5, C4, C3, C2, C1, S5, S4, S3, S2, S1, R5, R4, R3, R2, R1.
  cbn [criteria score recs].
  repeat split; try assumption; try reflexivity.
  repeat match goal with
         | |- context [if ?b then [] else _] => destruct b
         end; reflexivity.
Qed.

End DoubleEvaluation.

Section DoubleResults.

Import Doubles.

Local Open Scope float_scope.

#[local] Set Warnings "-inexact-float".

Lemma criterion_passed_details (r : ScoringResult) (v1 v2 v3 v4 v5 : string) :
  criteria_details r =
    [("apport", v1); ("revenus", v2); ("endettement", v3);
     ("reste_vivre", v4); ("age", v5)] ->
  criterion_passed "apport" r = String.prefix "✅" v1 /\
  criterion_passed "revenus" r = String.prefix "✅" v2 /\
  criterion_passed "endettement" r = String.prefix "✅" v3 /\
  criterion_passed "reste_vivre" r = String.prefix "✅" v4 /\
  criterion_passed "age" r = String.prefix "✅" v5.
Proof.
  intros H. unfold criterion_passed. rewrite H. repeat split.
Qed.

Lemma eligible_income_cases (e : EmploymentInfo) :
  calculate_eligible_income e = PInt 0 \/
  exists x, calculate_eligible_income e = PFloat x.
Proof.
  unfold calculate_eligible_income.
  destruct (status e), (trial_period e), (3 <=? years_experience e); eauto.
Qed.

(** The total eligible income is always computed. *)
Lemma income_returns (a : LoanApplication) : exists ti, income a = Ok ti.
Proof.
  unfold income, calculate_total_eligible_income.
  destruct (eligible_income_cases (employment (main_borrower (household a))))
    as [-> | [x ->]];
    (destruct (co_borrower (household a)) as [b|];
     [destruct (eligible_income_cases (employment b)) as [-> | [y ->]]|]);
    cbv beta iota zeta;
    rewrite ?add_zero_float, ?add_float_int, ?float_of_int_0;
    cbn [mbind result_bind add as_float]; eauto.
Qed.

Lemma min_remaining_small (a : LoanApplication) :
  validated a -> (0 <= min_remaining a <= 16500)%Z.
Proof.
  intros (_ & (Hb & _ & _ & Hc) & _). unfold min_remaining.
  destruct Hb as [-> | ->]; lia.
Qed.

(** A validated application is evaluated whenever the payment and the
    charges are computed and the charges fit a double. *)
Lemma evaluation_returns (float_pow : float -> Z -> result float)
    (ts : TauxStorage) (a : LoanApplication) (rnd : Z) :
  validated a ->
  (exists r, evaluate_application float_pow ts rnd a = Ok r) <->
  (exists mp cc c,
     payment float_pow ts a = Ok mp /\ charges a = Ok cc /\
     as_float cc = Ok c).
Proof.
  intros Hv. split.
  - intros [r H].
    destruct (evaluation_returned _ _ _ _ _ H)
      as (ti & cc & c & d & _ & _ & _ & _ & _ & _ & _
          & _ & Hmp & Hcc & Hc & _).
    now exists (monthly_payment r), cc, c.
  - intros (mp & cc & c & Hmp & Hcc & Hc).
    rewrite evaluation_steps. unfold mbind, result_bind.
    destruct (income_returns a) as [ti ->].
    rewrite Hmp, Hcc, Hc.
    destruct (debt_ratio_of_returns (mp + c) ti) as (d & -> & Hd).
    destruct (endettement_returns d (tally2 a ti) Hd) as [t3 ->].
    destruct (reste_vivre_returns (ti - (mp + c)) (min_remaining a) t3
                (min_remaining_small a Hv)) as [t4 ->].
    eauto.
Qed.

(** The payment is the annuity formula at any principal. *)
Lemma monthly_payment_formula (float_pow : float -> Z -> result float)
    (ts : TauxStorage) (amount : float) (years : Z) (r mp : float) :
  calculate_monthly_payment float_pow ts amount years (Some r) = Ok mp ->
  ((r / 12 =? 0) = true ->
     exists n, float_of_int (years * 12)%Z = Ok n /\ (n =? 0) = false /\
               mp = amount / n) /\
  ((r / 12 =? 0) = false ->
     exists g, float_pow (1 + r / 12) (years * 12)%Z = Ok g /\
               (g - 1 =? 0) = false /\
               mp = amount * (r / 12 * g) / (g - 1)).
Proof.
  unfold calculate_monthly_payment, truediv. intros H. split; intros E;
    rewrite E in H; unfold mbind, result_bind in H.
  - destruct (float_of_int (years * 12)%Z) as [n|]; [|discriminate].
    destruct (n =? 0) eqn:En; [discriminate|].
    injection H as <-. now exists n.
  - destruct (float_pow (1 + r / 12) (years * 12)%Z) as [g|]; [|discriminate].
    destruct (g - 1 =? 0) eqn:Eg; [discriminate|].
    injection H as <-. now exists g.
Qed.

Lemma points_range (w : Z) (b : bool) :
  (0 <= w)%Z -> (0 <= points w b <= w)%Z.
Proof. destruct b; simpl; lia. Qed.

End DoubleResults.

Section DoubleSamples.

Import Doubles.

Local Open Scope float_scope.

#[local] Set Warnings "-inexact-float".

Lemma exemple_in_doubles :
  evaluate_application ideal_pow ts 0 exemple = Ok resultat_exemple.
Proof. vm_compute. reflexivity. Qed.

Lemma surfinance_in_doubles :
  evaluate_application ideal_pow ts 0 surfinance = Ok resultat_surfinance.
Proof. vm_compute. reflexivity. Qed.

Lemma valid_salarie : valid_borrower (salarie cdi 3000 5 false).
Proof. repeat split; simpl; lia. Qed.

Lemma validated_doubles (price contribution : float) (ptype : PropertyType)
    (loans : list (gmap string JsonValue)) :
  (0 <? price) = true -> (0 <=? contribution) = true ->
  validated (dossier price ptype contribution 10
               (salarie cdi 3000 5 false) tenant loans 0).
Proof.
  intros Hp Hc. repeat split; simpl; try assumption; lia.
Qed.

End DoubleSamples.

(** ** Double precision: signs *)

Section DoubleSigns.

Import Doubles.

Local Open Scope Z_scope.

Lemma weakly_round_aux (s : bool) (m e : Z) (l : location) :
  weakly s (binary_round_aux prec emax s m e l).
Proof.
  unfold binary_round_aux.
  destruct (shr_fexp prec emax m e l) as [mrs' e'].
  destruct (shr_fexp prec emax _ e' loc_Exact) as [mrs'' e''].
  destruct (shr_m mrs''); simpl; [trivial| |trivial].
  destruct (e'' <=? emax - prec); reflexivity.
Qed.

Lemma weakly_round (s : bool) (m : positive) (e : Z) :
  weakly s (binary_round prec emax s m e).
Proof.
  unfold binary_round. destruct (shl_align m e _) as [mz ez].
  apply weakly_round_aux.
Qed.

Lemma weakly_normalize_nonpos (z e : Z) :
  z <= 0 -> weakly true (binary_normalize prec emax z e false).
Proof.
  intros H. destruct z as [|p|p]; simpl; [trivial|lia|apply weakly_round].
Qed.

Lemma weakly_normalize_nonneg (z e : Z) :
  0 <= z -> weakly false (binary_normalize prec emax z e false).
Proof.
  intros H. destruct z as [|p|p]; simpl; [trivial|apply weakly_round|lia].
Qed.

Lemma weakly_mul (s t : bool) (f g : spec_float) :
  weakly s f -> weakly t g -> weakly (xorb s t) (SFmul prec emax f g).
Proof.
  destruct f as [sf|sf| |sf mf ef], g as [sg|sg| |sg mg eg]; simpl;
    try trivial; intros; subst; try reflexivity.
  apply weakly_round_aux.
Qed.

Lemma weakly_div (s t : bool) (f g : spec_float) :
  weakly s f -> weakly t g -> (forall z, g <> S754_zero z) ->
  weakly (xorb s t) (SFdiv prec emax f g).
Proof.
  destruct f as [sf|sf| |sf mf ef], g as [sg|sg| |sg mg eg]; simpl;
    try trivial; intros Hf Hg Hz; subst; try reflexivity;
    try (now contradiction (Hz sg)).
  match goal with
  | |- context [SFdiv_core_binary ?p ?q ?a ?b ?c ?d] =>
      destruct (SFdiv_core_binary p q a b c d) as [[mz ez] lz]
  end.
  apply weakly_round_aux.
Qed.

Lemma iter_xO (d m : positive) :
  Z.pos (Pos.iter xO m d) = Z.pos m * 2 ^ Z.pos d.
Proof.
  induction d as [|d IH] using Pos.peano_ind.
  - simpl. lia.
  - rewrite Pos.iter_succ, Pos2Z.inj_succ, Z.pow_succ_r by lia.
    rewrite Pos2Z.inj_xO, IH. lia.
Qed.

Lemma shl_align_value (m : positive) (e e' : Z) :
  e' <= e -> Z.pos (fst (shl_align m e e')) = Z.pos m * 2 ^ (e - e').
Proof.
  intros H. unfold shl_align.
  destruct (e' - e) as [|d|d] eqn:E; simpl.
  - replace (e - e') with 0 by lia. simpl. lia.
  - lia.
  - rewrite iter_xO. f_equal. f_equal. lia.
Qed.

Lemma digits2_bounds (m : positive) :
  2 ^ (Z.pos (digits2_pos m) - 1) <= Z.pos m < 2 ^ Z.pos (digits2_pos m).
Proof.
  induction m as [m IH|m IH|]; simpl digits2_pos.
  - rewrite Pos2Z.inj_succ, Z.pow_succ_r by lia.
    replace (Z.succ (Z.pos (digits2_pos m)) - 1)
      with (Z.succ (Z.pos (digits2_pos m) - 1)) by lia.
    rewrite Z.pow_succ_r by lia. lia.
  - rewrite Pos2Z.inj_succ, Z.pow_succ_r by lia.
    replace (Z.succ (Z.pos (digits2_pos m)) - 1)
      with (Z.succ (Z.pos (digits2_pos m) - 1)) by lia.
    rewrite Z.pow_succ_r by lia. lia.
  - simpl. lia.
Qed.

(** A valid mantissa has at most 53 bits, and exactly 53 above the least
    exponent. *)
Lemma bounded_mantissa (m : positive) (e : Z) :
  bounded prec emax m e = true ->
  Z.pos m < 2 ^ 53 /\ (- 1074 < e -> 2 ^ 52 <= Z.pos m).
Proof.
  unfold bounded, canonical_mantissa, fexp, emin, prec, emax.
  intros H. apply andb_true_iff in H. destruct H as [H _].
  apply Z.eqb_eq in H.
  pose proof (digits2_bounds m) as [Hl Hu].
  set (d := Z.pos (digits2_pos m)) in *.
  assert (Hd : 0 < d) by (subst d; lia).
  split.
  - apply Z.lt_le_trans with (2 ^ d); [exact Hu|].
    apply Z.pow_le_mono_r; lia.
  - intros He. assert (d = 53) as Ed by lia.
    rewrite Ed in Hl. exact Hl.
Qed.

Lemma bounded_exponent (m : positive) (e : Z) :
  bounded prec emax m e = true -> - 1074 <= e.
Proof.
  unfold bounded, canonical_mantissa, fexp, emin, prec, emax.
  intros H. apply andb_true_iff in H. destruct H as [H _].
  apply Z.eqb_eq in H. lia.
Qed.

(** Of two valid finite doubles, the one with the smaller exponent has the
    smaller magnitude. *)
Lemma smaller_exponent (mx my : positive) (ex ey : Z) :
  bounded prec emax mx ex = true -> bounded prec emax my ey = true ->
  ex < ey ->
  Z.pos (fst (shl_align mx ex (Z.min ex ey)))
  <= Z.pos (fst (shl_align my ey (Z.min ex ey))).
Proof.
  intros Hx Hy H.
  rewrite !shl_align_value by lia.
  replace (Z.min ex ey) with ex by lia.
  replace (ex - ex) with 0 by lia. rewrite Z.pow_0_r, Z.mul_1_r.
  destruct (bounded_mantissa _ _ Hx) as [Hux _].
  destruct (bounded_mantissa _ _ Hy) as [_ Hly].
  pose proof (bounded_exponent _ _ Hx) as Hex.
  specialize (Hly ltac:(lia)).
  assert (Hk : 2 ^ 1 <= 2 ^ (ey - ex)) by (apply Z.pow_le_mono_r; lia).
  change (2 ^ 1) with 2 in Hk.
  change (2 ^ 53) with (2 * 2 ^ 52) in Hux.
  set (k := 2 ^ (ey - ex)) in *. set (B := 2 ^ 52) in *. nia.
Qed.

Lemma same_exponent (mx my : positive) (e : Z) :
  Z.pos (fst (shl_align mx e (Z.min e e))) = Z.pos mx /\
  Z.pos (fst (shl_align my e (Z.min e e))) = Z.pos my.
Proof.
  rewrite !shl_align_value by lia.
  replace (e - Z.min e e) with 0 by lia. simpl. lia.
Qed.

(** [x - y] is not above zero when [x <= y]. *)
Lemma weakly_sub_finite (sx sy : bool) (mx my : positive) (ex ey : Z) :
  bounded prec emax mx ex = true -> bounded prec emax my ey = true ->
  SFleb (S754_finite sx mx ex) (S754_finite sy my ey) = true ->
  cond_Zopp sx (Z.pos (fst (shl_align mx ex (Z.min ex ey))))
  - cond_Zopp sy (Z.pos (fst (shl_align my ey (Z.min ex ey)))) <= 0.
Proof.
  unfold SFleb. simpl. intros Vx Vy H.
  destruct sx, sy; simpl cond_Zopp; try discriminate H; try lia.
  - destruct (Z.compare_spec ex ey) as [E|E|E]; try discriminate H.
    + subst ey. destruct (same_exponent mx my ex) as [-> ->].
      change (Pos.compare_cont Eq mx my) with (mx ?= my)%positive in H.
      destruct (mx ?= my)%positive eqn:C; try discriminate H.
      * apply Pos.compare_eq in C. lia.
      * rewrite Pos2Z.inj_compare in C. change (Z.pos mx > Z.pos my) in C. lia.
    + pose proof (smaller_exponent my mx ey ex Vy Vx E) as L.
      rewrite (Z.min_comm ey ex) in L. lia.
  - destruct (Z.compare_spec ex ey) as [E|E|E]; try discriminate H.
    + subst ey. destruct (same_exponent mx my ex) as [-> ->].
      change (Pos.compare_cont Eq mx my) with (mx ?= my)%positive in H.
      destruct (mx ?= my)%positive eqn:C; try discriminate H.
      * apply Pos.compare_eq in C. lia.
      * rewrite Pos2Z.inj_compare in C. change (Z.pos mx < Z.pos my) in C. lia.
    + pose proof (smaller_exponent mx my ex ey Vx Vy E) as L. lia.
Qed.

(** [x - y] is not above zero when [x <= y]. *)
Lemma weakly_sub (x y : spec_float) :
  SpecFloat.valid_binary prec emax x = true ->
  SpecFloat.valid_binary prec emax y = true ->
  SFleb x y = true -> weakly true (SFsub prec emax x y).
Proof.
  destruct x as [sx|sx| |sx mx ex], y as [sy|sy| |sy my ey]; intros Vx Vy H;
    try discriminate H;
    try (apply weakly_normalize_nonpos; now apply weakly_sub_finite);
    try (destruct sx; try discriminate H);
    try (destruct sy; try discriminate H);
    simpl; trivial.
Qed.

(** [y - x] is not below zero when [x <= y]. *)
Lemma weakly_sub_reverse (x y : spec_float) :
  SpecFloat.valid_binary prec emax x = true ->
  SpecFloat.valid_binary prec emax y = true ->
  SFleb x y = true -> weakly false (SFsub prec emax y x).
Proof.
  destruct x as [sx|sx| |sx mx ex], y as [sy|sy| |sy my ey]; intros Vx Vy H;
    try discriminate H;
    try (apply weakly_normalize_nonneg;
         pose proof (weakly_sub_finite _ _ _ _ _ _ Vx Vy H) as L;
         rewrite (Z.min_comm ey ex); lia);
    try (destruct sx; try discriminate H);
    try (destruct sy; try discriminate H);
    simpl; trivial.
Qed.

End DoubleSigns.

Section DoubleSignsOfFloats.

Import Doubles.

Local Open Scope float_scope.

#[local] Set Warnings "-inexact-float".

Lemma not_positive_weakly (x : float) :
  (0 <? x) = false <-> weakly true (Prim2SF x).
Proof.
  rewrite FloatAxioms.ltb_spec. change (Prim2SF 0) with (S754_zero false).
  unfold SFltb. destruct (Prim2SF x) as [s|s| |s m e]; simpl;
    try tauto; destruct s; simpl; split; intros H;
    try reflexivity; try discriminate H.
Qed.

Lemma not_negative_weakly (x : float) :
  (x <? 0) = false <-> weakly false (Prim2SF x).
Proof.
  rewrite FloatAxioms.ltb_spec. change (Prim2SF 0) with (S754_zero false).
  unfold SFltb. destruct (Prim2SF x) as [s|s| |s m e]; simpl;
    try tauto; destruct s; simpl; split; intros H;
    try reflexivity; try discriminate H.
Qed.

Lemma nonzero_spec (y : float) :
  (y =? 0) = false -> forall z, Prim2SF y <> S754_zero z.
Proof.
  rewrite FloatAxioms.eqb_spec. change (Prim2SF 0) with (S754_zero false).
  intros H z E. rewrite E in H. discriminate H.
Qed.

Lemma at_least_one_weakly (g : float) :
  (1 <=? g) = true -> weakly false (Prim2SF g).
Proof.
  rewrite FloatAxioms.leb_spec.
  change (Prim2SF 1) with (S754_finite false 4503599627370496 (-52)).
  unfold SFleb. destruct (Prim2SF g) as [s|s| |s m e]; simpl; try trivial;
    destruct s; try reflexivity; intros H; discriminate H.
Qed.

Lemma mul_weakly (s t : bool) (x y : float) :
  weakly s (Prim2SF x) -> weakly t (Prim2SF y) ->
  weakly (xorb s t) (Prim2SF (x * y)).
Proof. rewrite mul_spec. apply weakly_mul. Qed.

Lemma div_weakly (s t : bool) (x y : float) :
  weakly s (Prim2SF x) -> weakly t (Prim2SF y) -> (y =? 0) = false ->
  weakly (xorb s t) (Prim2SF (x / y)).
Proof.
  intros Hx Hy Hz. rewrite div_spec.
  apply weakly_div; [exact Hx | exact Hy | now apply nonzero_spec].
Qed.

(** What is at most the contribution leaves nothing to borrow. *)
Lemma sub_not_positive (b c : float) : (b <=? c) = true -> (0 <? b - c) = false.
Proof.
  rewrite FloatAxioms.leb_spec. intros H.
  apply not_positive_weakly. rewrite sub_spec.
  apply weakly_sub; [apply Prim2SF_valid | apply Prim2SF_valid | exact H].
Qed.

Lemma sub_not_negative (b c : float) : (b <=? c) = true -> (c - b <? 0) = false.
Proof.
  rewrite FloatAxioms.leb_spec. intros H.
  apply not_negative_weakly. rewrite sub_spec.
  apply weakly_sub_reverse;
    [apply Prim2SF_valid | apply Prim2SF_valid | exact H].
Qed.

(** The number of payments of a validated term, as a double. *)
Lemma term_converts (years : Z) :
  (5 <= years <= 30)%Z ->
  exists n, float_of_int (years * 12) = Ok n /\
            (n <? 0) = false /\ (n =? 0) = false.
Proof.
  intros H.
  assert (E : exists k : nat, (k < 26)%nat /\ years = (5 + Z.of_nat k)%Z).
  { exists (Z.to_nat (years - 5)). lia. }
  destruct E as (k & Hk & ->).
  do 26 (destruct k as [|k]; [eexists; vm_compute; repeat split|]).
  lia.
Qed.

(** With a rate that is not negative and a power that is at least 1, a
    principal that is not positive gives a payment that is not positive. *)
Lemma payment_not_positive (float_pow : float -> Z -> result float)
    (ts : TauxStorage) (amount : float) (years : Z) (r mp : float) :
  (0 <? amount) = false -> (r <? 0) = false -> (5 <= years <= 30)%Z ->
  (forall g, float_pow (1 + r / 12) (years * 12)%Z = Ok g ->
             (1 <=? g) = true) ->
  calculate_monthly_payment float_pow ts amount years (Some r) = Ok mp ->
  (0 <? mp) = false.
Proof.
  intros Ha Hr Hy Hg H.
  apply not_positive_weakly in Ha. apply not_negative_weakly in Hr.
  apply not_positive_weakly.
  destruct (monthly_payment_formula _ _ _ _ _ _ H) as [F0 F1].
  destruct (r / 12 =? 0) eqn:E.
  - destruct (F0 eq_refl) as (n & Hn & Hz & ->).
    destruct (term_converts years Hy) as (n' & Hn' & Hs & _).
    rewrite Hn in Hn'. injection Hn' as <-.
    apply not_negative_weakly in Hs.
    exact (div_weakly true false _ _ Ha Hs Hz).
  - destruct (F1 eq_refl) as (g & Hpow & Hz & ->).
    pose proof (Hg g Hpow) as H1.
    assert (Hi : weakly false (Prim2SF (r / 12))).
    { apply (div_weakly false false); [exact Hr | reflexivity | reflexivity]. }
    pose proof (mul_weakly false false _ _ Hi (at_least_one_weakly g H1)) as Hig.
    pose proof (mul_weakly true false _ _ Ha Hig) as Hn.
    apply sub_not_negative, not_negative_weakly in H1.
    exact (div_weakly true false _ _ Hn H1 Hz).
Qed.

End DoubleSignsOfFloats.

Section DoubleTheorems.

Import Doubles.

Local Open Scope float_scope.

#[local] Set Warnings "-inexact-float".

(** C7: whenever the evaluation returns a result, its score is the sum of
    the weights of the criteria whose verdict in that result is a pass, 30
    for the contribution, 20 for the income, 30 for the debt ratio, 10 for
    the remaining-to-live and 10 for the age, hence between 0 and 100; the
    contribution passes when 10% of the budget is at most the contribution,
    the income when the main borrower's eligible income is positive, the
    age when age plus duration is at most 64. *)
Theorem score_sums_passed_weights (float_pow : float -> Z -> result float)
    (ts : TauxStorage) (a : LoanApplication) (rnd : Z) (r : ScoringResult) :
  evaluate_application float_pow ts rnd a = Ok r ->
  feasibility_score r =
    (points 30 (criterion_passed "apport" r)
     + points 20 (criterion_passed "revenus" r)
     + points 30 (criterion_passed "endettement" r)
     + points 10 (criterion_passed "reste_vivre" r)
     + points 10 (criterion_passed "age" r))%Z /\
  (0 <= feasibility_score r <= 100)%Z /\
  criterion_passed "apport" r =
    (budget a * 0.10 <=? personal_contribution (project a)) /\
  criterion_passed "revenus" r =
    gt_zero (calculate_eligible_income
               (employment (main_borrower (household a)))) /\
  criterion_passed "age" r =
    (age (main_borrower (household a)) + loan_duration (project a) <=? 64)%Z.
Proof.
  intros H.
  destruct (evaluation_returned _ _ _ _ _ H)
    as (ti & cc & c & d & v1 & v2 & v3 & v4 & v5 & x1 & x4
        & _ & _ & _ & _ & _ & Hc & P1 & P2 & P3 & P4 & P5 & Hs & _).
  destruct (criterion_passed_details _ _ _ _ _ _ Hc)
    as (-> & -> & -> & -> & ->).
  rewrite P1, P2, P3, P4, P5. repeat split; try exact Hs.
  all: rewrite Hs;
    repeat match goal with
           | |- context [points ?w ?b] =>
               let Hb := fresh in
               assert (Hb : (0 <= points w b <= w)%Z)
                 by (apply points_range; lia);
               generalize dependent (points w b); intros
           end; lia.
Qed.

(** The score of the example of the specification. *)
Lemma score_sums_passed_weights_exemple :
  evaluate_application ideal_pow ts 0 exemple = Ok resultat_exemple /\
  feasibility_score resultat_exemple =
    (points 30 (criterion_passed "apport" resultat_exemple)
     + points 20 (criterion_passed "revenus" resultat_exemple)
     + points 30 (criterion_passed "endettement" resultat_exemple)
     + points 10 (criterion_passed "reste_vivre" resultat_exemple)
     + points 10 (criterion_passed "age" resultat_exemple))%Z /\
  (0 <= feasibility_score resultat_exemple <= 100)%Z /\
  criterion_passed "apport" resultat_exemple =
    (budget exemple * 0.10 <=? personal_contribution (project exemple)) /\
  criterion_passed "revenus" resultat_exemple =
    gt_zero (calculate_eligible_income
               (employment (main_borrower (household exemple)))) /\
  criterion_passed "age" resultat_exemple =
    (age (main_borrower (household exemple))
     + loan_duration (project exemple) <=? 64)%Z.
Proof.
  split; [exact exemple_in_doubles|].
  exact (score_sums_passed_weights ideal_pow ts exemple 0 resultat_exemple
           exemple_in_doubles).
Defined.



(** C2, as the code has it: when the contribution covers the whole budget
    the loan amount budget - contribution is not positive, and the
    evaluation returns exactly when the payment and the current charges are
    computed and the charges fit a double.  The payment of a returned
    result is the annuity formula at that loan amount itself, with no
    special case for an amount that is not positive: it is not replaced by
    0, and it is never positive when the rate is not negative and the power
    is at least 1, as the power of a base from 1 on is.  This payment is
    the one the debt ratio and the remaining-to-live are computed from. *)
Theorem overfunded_payment_unclamped (float_pow : float -> Z -> result float)
    (ts : TauxStorage) (a : LoanApplication) (rnd : Z) :
  validated a ->
  (budget a <=? personal_contribution (project a)) = true ->
  (0 <? loan_amount a) = false /\
  ((exists r, evaluate_application float_pow ts rnd a = Ok r) <->
   (exists mp cc c,
      calculate_monthly_payment float_pow ts (loan_amount a)
        (loan_duration (project a)) (Some (rate ts a)) = Ok mp /\
      calculate_current_charges (housing a) (financial a) = Ok cc /\
      as_float cc = Ok c)) /\
  forall r, evaluate_application float_pow ts rnd a = Ok r ->
    let i := rate ts a / 12 in
    let n := (loan_duration (project a) * 12)%Z in
    ((i =? 0) = true ->
       exists m, float_of_int n = Ok m /\ (m =? 0) = false /\
                 monthly_payment r = loan_amount a / m) /\
    ((i =? 0) = false ->
       exists g, float_pow (1 + i) n = Ok g /\ (g - 1 =? 0) = false /\
                 monthly_payment r = loan_amount a * (i * g) / (g - 1)) /\
    ((rate ts a <? 0) = false ->
     (forall g, float_pow (1 + i) n = Ok g -> (1 <=? g) = true) ->
     (0 <? monthly_payment r) = false) /\
    exists total_income current_charges charges,
      calculate_total_eligible_income (household a) (financial a)
        = Ok total_income /\
      calculate_current_charges (housing a) (financial a)
        = Ok current_charges /\
      as_float current_charges = Ok charges /\
      criterion_passed "endettement" r =
        (if 0 <? total_income
         then (monthly_payment r + charges) / total_income <=? 0.33
         else false) /\
      criterion_passed "reste_vivre" r =
        ge_int (total_income - (monthly_payment r + charges))
          (min_remaining a).
Proof.
  intros Hv Hb.
  assert (Ha : (0 <? loan_amount a) = false) by now apply sub_not_positive.
  split; [exact Ha|].
  split; [exact (evaluation_returns float_pow ts a rnd Hv)|].
  intros r H.
  destruct (evaluation_returned _ _ _ _ _ H)
    as (ti & cc & c & d & v1 & v2 & v3 & v4 & v5 & x1 & x4
        & Hti & Hmp & Hcc & Hcf & Hd & Hc & P1 & P2 & P3 & P4 & P5 & _).
  destruct (criterion_passed_details _ _ _ _ _ _ Hc)
    as (_ & _ & E3 & E4 & _).
  destruct (monthly_payment_formula _ _ _ _ _ _ Hmp) as [F0 F1].
  cbv zeta. split; [exact F0|]. split; [exact F1|].
  split.
  { intros Hr Hg. destruct Hv as ((_ & _ & Hy) & _).
    exact (payment_not_positive _ _ _ _ _ _ Ha Hr Hy Hg Hmp). }
  exists ti, cc, c. repeat split; try assumption.
  - rewrite E3, P3. destruct (0 <? ti) eqn:E.
    + now rewrite (debt_ratio_of_positive _ _ _ E Hd).
    + rewrite (debt_ratio_of_otherwise _ _ _ E Hd).
      apply one_above_threshold.
  - now rewrite E4, P4.
Qed.

Lemma validated_surfinance_doubles : validated surfinance.
Proof. now apply validated_doubles. Qed.

Lemma validated_surfinance_enorme : validated surfinance_enorme.
Proof. now apply validated_doubles. Qed.

Lemma surfinance_overfunded_doubles :
  (budget surfinance <=? personal_contribution (project surfinance)) = true.
Proof. vm_compute. reflexivity. Qed.

(** An over-funded purchase: 103000 to pay, 200000 brought. *)
Lemma overfunded_payment_unclamped_surfinance :
  validated surfinance /\
  (budget surfinance <=? personal_contribution (project surfinance)) = true /\
  (0 <? loan_amount surfinance) = false /\
  ((exists r, evaluate_application ideal_pow ts 0 surfinance = Ok r) <->
   (exists mp cc c,
      calculate_monthly_payment ideal_pow ts (loan_amount surfinance)
        (loan_duration (project surfinance)) (Some (rate ts surfinance))
        = Ok mp /\
      calculate_current_charges (housing surfinance) (financial surfinance)
        = Ok cc /\
      as_float cc = Ok c)) /\
  forall r, evaluate_application ideal_pow ts 0 surfinance = Ok r ->
    let i := rate ts surfinance / 12 in
    let n := (loan_duration (project surfinance) * 12)%Z in
    ((i =? 0) = true ->
       exists m, float_of_int n = Ok m /\ (m =? 0) = false /\
                 monthly_payment r = loan_amount surfinance / m) /\
    ((i =? 0) = false ->
       exists g, ideal_pow (1 + i) n = Ok g /\ (g - 1 =? 0) = false /\
                 monthly_payment r
                   = loan_amount surfinance * (i * g) / (g - 1)) /\
    ((rate ts surfinance <? 0) = false ->
     (forall g, ideal_pow (1 + i) n = Ok g -> (1 <=? g) = true) ->
     (0 <? monthly_payment r) = false) /\
    exists total_income current_charges charges,
      calculate_total_eligible_income (household surfinance)
        (financial surfinance) = Ok total_income /\
      calculate_current_charges (housing surfinance) (financial surfinance)
        = Ok current_charges /\
      as_float current_charges = Ok charges /\
      criterion_passed "endettement" r =
        (if 0 <? total_income
         then (monthly_payment r + charges) / total_income <=? 0.33
         else false) /\
      criterion_passed "reste_vivre" r =
        ge_int (total_income - (monthly_payment r + charges))
          (min_remaining surfinance).
Proof.
  split; [exact validated_surfinance_doubles|].
  split; [exact surfinance_overfunded_doubles|].
  exact (overfunded_payment_unclamped ideal_pow ts surfinance 0
           validated_surfinance_doubles surfinance_overfunded_doubles).
Defined.

(** C2, the counterexample: 103000 to pay and 200000 brought, over ten
    years.  With a consumer loan of 1200.0 a month the payment is
    -929.94, not 0, and the debt criterion passes at 9.0% where a payment
    of 0 would make it fail at 40%.  With a consumer loan of [10**400] a
    month, an int, the evaluation raises whatever the power function. *)
Lemma overfunded_negative_or_raises :
  (validated surfinance /\
   (budget surfinance <=? personal_contribution (project surfinance)) = true /\
   evaluate_application ideal_pow ts 0 surfinance = Ok resultat_surfinance /\
   (monthly_payment resultat_surfinance <? 0) = true /\
   criterion_passed "endettement" resultat_surfinance = true /\
   ((0 + 1200) / 3000 <=? 0.33) = false) /\
  (validated surfinance_enorme /\
   (budget surfinance_enorme
    <=? personal_contribution (project surfinance_enorme)) = true /\
   evaluate_application ideal_pow ts 0 surfinance_enorme
     = Raise OverflowError /\
   ~ exists float_pow rnd r,
       evaluate_application float_pow ts rnd surfinance_enorme = Ok r).
Proof.
  split.
  - split; [exact validated_surfinance_doubles|].
    split; [exact surfinance_overfunded_doubles|].
    split; [exact surfinance_in_doubles|].
    repeat split.
  - split; [exact validated_surfinance_enorme|].
    split; [exact surfinance_overfunded_doubles|].
    split; [vm_compute; reflexivity|].
    intros (float_pow & rnd & r & H).
    destruct (evaluation_returned _ _ _ _ _ H)
      as (ti & cc & c & d & _ & _ & _ & _ & _ & _ & _
          & _ & _ & Hcc & Hc & _).
    vm_compute in Hcc. injection Hcc as <-.
    vm_compute in Hc. discriminate Hc.
Qed.

End DoubleTheorems.

Section DoubleExtras.

Import Doubles.

Local Open Scope float_scope.

#[local] Set Warnings "-inexact-float".

Lemma integer_sum_Permutation (l l' : list JsonValue) :
  l ≡ₚ l' -> integer_sum l = integer_sum l'.
Proof.
  induction 1 as [|v l l' _ IH|v w l|l l' l'' _ IH _ IH']; simpl;
    [reflexivity | now rewrite IH | lia | congruence].
Qed.

Lemma is_integer_Permutation (l l' : list JsonValue) :
  l ≡ₚ l' -> Forall is_integer l -> Forall is_integer l'.
Proof. intros H. now rewrite H. Qed.

Lemma initial_charges (h : HousingInfo) :
  current_status h <> proprietaire \/ changing_main_residence h = false ->
  forall f, calculate_current_charges h f
            = sum_from (PInt 0) (declared (consumer_loans f)).
Proof.
  intros H f. unfold calculate_current_charges.
  rewrite <- add_consumer_loans_declared.
  destruct (current_status h); try reflexivity.
  destruct H as [H|H]; [now contradict H|]. now rewrite H.
Qed.

(** X5: for a tenant, a hosted borrower or an owner who keeps the main
    residence, consumer-loan payments that are all ints give the same
    current charges in any order of the loans, their exact sum; payments
    that are floats need not, as 1e16, 1.0 and -1e16 show. *)
Theorem integer_charges_any_order (h : HousingInfo) (f f' : FinancialInfo) :
  consumer_loans f ≡ₚ consumer_loans f' ->
  Forall is_integer (declared (consumer_loans f)) ->
  current_status h <> proprietaire \/ changing_main_residence h = false ->
  calculate_current_charges h f = calculate_current_charges h f' /\
  calculate_current_charges h f
    = Ok (PInt (integer_sum (declared (consumer_loans f)))) /\
  sum_from (PInt 0) [JFloat 1e16; JFloat 1; JFloat (-1e16)] = Ok (PFloat 0) /\
  sum_from (PInt 0) [JFloat 1e16; JFloat (-1e16); JFloat 1] = Ok (PFloat 1).
Proof.
  intros Hp Hi Hh.
  assert (Hd : declared (consumer_loans f) ≡ₚ declared (consumer_loans f'))
    by (unfold declared; now apply Permutation_map).
  rewrite !(initial_charges h Hh).
  rewrite (sum_from_integers _ Hi 0).
  rewrite (sum_from_integers _ (is_integer_Permutation _ _ Hd Hi) 0).
  rewrite (integer_sum_Permutation _ _ Hd).
  repeat split.
Qed.

Lemma sum_from_raises (values : list JsonValue) :
  Exists not_a_number values ->
  forall c, exists e, sum_from c values = Raise e.
Proof.
  induction 1 as [v rest Hv|v rest _ IH]; intros c; rewrite sum_from_cons.
  - destruct v; try contradiction; simpl; eauto.
  - destruct (add_value c v) as [c'|e]; simpl; [apply IH | eauto].
Qed.

Lemma charges_raise (h : HousingInfo) (f : FinancialInfo) :
  Exists not_a_number (declared (consumer_loans f)) ->
  exists e, calculate_current_charges h f = Raise e.
Proof.
  intros H. unfold calculate_current_charges.
  assert (S : exists c,
            match current_status h with
            | locataire => add (PInt 0) (PInt 0)
            | proprietaire =>
                if changing_main_residence h
                then add (PInt 0) (PFloat (current_mortgage h))
                else Ok (PInt 0)
            | heberge_gratuit => Ok (PInt 0)
            end = Ok c).
  { destruct (current_status h); [eexists; reflexivity| |eexists; reflexivity].
    destruct (changing_main_residence h); [|eexists; reflexivity].
    rewrite add_zero_float. eauto. }
  destruct S as [c ->]. cbn [mbind result_bind].
  rewrite add_consumer_loans_declared. now apply sum_from_raises.
Qed.

(** X6: when a consumer loan declares a payment that is no number, the
    current charges raise, and so does the evaluation, whatever the rest
    of the application and whatever the power function; it raises the
    error of the charges when the payment was computed. *)
Theorem evaluation_fails_on_untyped_payment
    (float_pow : float -> Z -> result float) (ts : TauxStorage)
    (a : LoanApplication) (rnd : Z) :
  Exists not_a_number (declared (consumer_loans (financial a))) ->
  exists e,
    calculate_current_charges (housing a) (financial a) = Raise e /\
    (forall r, evaluate_application float_pow ts rnd a <> Ok r) /\
    ((exists mp, payment float_pow ts a = Ok mp) ->
     evaluate_application float_pow ts rnd a = Raise e).
Proof.
  intros H. destruct (charges_raise (housing a) (financial a) H) as [e He].
  exists e. split; [exact He|]. split.
  - intros r Hr.
    destruct (evaluation_returned _ _ _ _ _ Hr)
      as (ti & cc & c & d & _ & _ & _ & _ & _ & _ & _
          & _ & _ & Hcc & _).
    unfold charges in Hcc. congruence.
  - intros [mp Hmp]. rewrite evaluation_steps.
    destruct (income_returns a) as [ti ->]. unfold charges.
    rewrite Hmp, He. reflexivity.
Qed.

(** Two loans of 80 and 120 for a tenant. *)
Lemma integer_charges_any_order_tenant :
  consumer_loans finances_entieres
    ≡ₚ consumer_loans finances_entieres_inverse /\
  Forall is_integer (declared (consumer_loans finances_entieres)) /\
  (current_status tenant <> proprietaire \/
   changing_main_residence tenant = false) /\
  calculate_current_charges tenant finances_entieres
    = calculate_current_charges tenant finances_entieres_inverse /\
  calculate_current_charges tenant finances_entieres
    = Ok (PInt (integer_sum (declared (consumer_loans finances_entieres)))) /\
  sum_from (PInt 0) [JFloat 1e16; JFloat 1; JFloat (-1e16)] = Ok (PFloat 0) /\
  sum_from (PInt 0) [JFloat 1e16; JFloat (-1e16); JFloat 1] = Ok (PFloat 1).
Proof.
  assert (Hp : consumer_loans finances_entieres
               ≡ₚ consumer_loans finances_entieres_inverse)
    by apply perm_swap.
  assert (Hi : Forall is_integer (declared (consumer_loans finances_entieres)))
    by (repeat constructor; now eexists).
  assert (Hh : current_status tenant <> proprietaire \/
               changing_main_residence tenant = false)
    by (now left).
  split; [exact Hp|]. split; [exact Hi|]. split; [exact Hh|].
  exact (integer_charges_any_order tenant finances_entieres
           finances_entieres_inverse Hp Hi Hh).
Defined.

(** The example with a payment that is a string. *)
Lemma evaluation_fails_on_untyped_payment_exemple :
  Exists not_a_number
    (declared (consumer_loans (financial exemple_mal_type))) /\
  exists e,
    calculate_current_charges (housing exemple_mal_type)
      (financial exemple_mal_type) = Raise e /\
    (forall r, evaluate_application ideal_pow ts 0 exemple_mal_type <> Ok r) /\
    ((exists mp, payment ideal_pow ts exemple_mal_type = Ok mp) ->
     evaluate_application ideal_pow ts 0 exemple_mal_type = Raise e).
Proof.
  assert (H : Exists not_a_number
                (declared (consumer_loans (financial exemple_mal_type))))
    by (apply Exists_cons_tl, Exists_cons_hd; exact I).
  split; [exact H|].
  exact (evaluation_fails_on_untyped_payment ideal_pow ts exemple_mal_type 0 H).
Defined.

End DoubleExtras.
